(** * BarChart: the chart container of react-charts-d3

    A shallow embedding of [src/components/BarChart/BarChart.js]: the
    component's props and state, its lifecycle methods
    ([componentWillMount], [componentDidMount], [updateDimensions],
    [updateChart], [render]) and the d3-dispatch registry the component
    writes its handlers to.

    Conventions.
    - JavaScript numbers that the component only measures, adds or passes on
      (pixel widths, margins, milliseconds) are [Z]; [barSpacing] is a
      rational.  A number is falsy exactly when it is [0].
    - A prop that the host may leave out ([data] has no entry in
      [defaultProps]) is an [option]; [None] is JavaScript's [undefined].
    - A call that can throw returns a [Result].
    - [this.setState] is explicit state passing; the dispatcher, which the
      component mutates through [eventDispatcher.on], is threaded next to the
      state. *)

From stdpp Require Import base option list strings gmap.
From Stdlib Require Import Ascii ZArith QArith Lia.

Local Open Scope Z_scope.
Local Open Scope string_scope.

(** ** Exceptions *)

Inductive JsError :=
| TypeError (msg : string)
| Error (msg : string).

Inductive Result (A : Type) :=
| Ok (a : A)
| Throw (e : JsError).

Arguments Ok {A} a.
Arguments Throw {A} e.

(** [Result] is an error monad; sequencing uses stdpp's [x ← r; k]. *)
Global Instance Result_ret : MRet Result := fun _ a => Ok a.

Global Instance Result_bind : MBind Result := fun _ _ k r =>
  match r with
  | Ok a => k a
  | Throw e => Throw e
  end.

Definition succeeds {A : Type} (r : Result A) : bool :=
  match r with Ok _ => true | Throw _ => false end.

(** ** Data model (utils/commonTypes) *)

(** One point of a series.  [series] and [key] are the two fields that
    [chart.mapSeriesToData] attaches; they are absent until the first
    render. *)
Module Point.
Record t := mk {
  x : string;
  y : Z;
  series : option nat;
  key : option string;
}.
End Point.

(** A chart datum: a named series, its points, and the [disabled] flag that
    the legend toggles.  The flag may be missing. *)
Module ChartData.
Record t := mk {
  key : string;
  values : list Point.t;
  disabled : option bool;
}.
End ChartData.

(** [!d.disabled]: a missing flag is falsy. *)
Definition truthy (flag : option bool) : bool :=
  match flag with
  | Some b => b
  | None => false
  end.

Definition enabled (d : ChartData.t) : bool := negb (truthy (ChartData.disabled d)).

Module Margin.
Record t := mk { top : Z; left : Z; bottom : Z; right : Z }.
End Margin.

Module AxisConfig.
Record t := mk {
  showXAxis : bool;
  showXAxisLabel : bool;
  xLabel : string;
  xLabelPosition : string;
  showYAxis : bool;
  showYAxisLabel : bool;
  yLabel : string;
  yLabelPosition : string;
}.
End AxisConfig.

Module ColorScale.
Record t := mk { from : string; to : string }.
End ColorScale.

(** ** Props *)

(** The [eventDispatcher] prop is a reference to a mutable d3-dispatch
    object; the object itself is the [Dispatcher] threaded through
    [updateChart] and [render] below. *)
Module Props.
Record t := mk {
  data : option (list ChartData.t);
  width : Z;
  height : Z;
  margin : Margin.t;
  showLegend : bool;
  axisConfig : AxisConfig.t;
  showGridX : bool;
  showGridY : bool;
  xScaleType : string;
  yScaleType : string;
  tickFormat : string;
  useColorScale : bool;
  colorScale : ColorScale.t;
  colorSchemeCategory : list string;
  barSpacing : Q;
  animate : bool;
  duration : Z;
  delay : Z;
  fluid : bool;
  noDataMessage : string;
}.
End Props.

(** [static defaultProps], completed with the [data] the host passes. *)
Definition defaultProps (data : option (list ChartData.t)) : Props.t :=
  {| Props.data := data;
     Props.width := 600;
     Props.height := 200;
     Props.margin := Margin.mk 20 40 30 10;
     Props.showLegend := true;
     Props.axisConfig :=
       AxisConfig.mk true true "X Axis" "right" true true "Y Axis" "top";
     Props.showGridX := true;
     Props.showGridY := true;
     Props.xScaleType := "band";
     Props.yScaleType := "linear";
     Props.tickFormat := ".0f";
     Props.useColorScale := true;
     Props.colorScale := ColorScale.mk "#008793" "#00bf72";
     Props.colorSchemeCategory := [];
     Props.barSpacing := (5 # 100)%Q;
     Props.animate := true;
     Props.duration := 500;
     Props.delay := 50;
     Props.fluid := true;
     Props.noDataMessage := "No Data Available." |}.

(** ** The event dispatcher (d3-dispatch)

    A dispatcher made by [dispatch(t1, ..., tn)] is an object with one array
    of [{name, value}] entries per declared type.  [on] takes a typename
    [type.name] and replaces the entry called [name] in the array of
    [type]; a typename without a dot, as ['legendClick'], has the empty
    name.  [on] and [call] throw on a type the dispatcher was not made
    with.  Typenames here are single ones, without white space. *)

(** The callbacks a dispatcher can hold: the two arrows [updateChart]
    registers, and whatever the host registered itself. *)
Inductive Callback :=
| SetStateData                 (* d => this.setState({ data: d }) *)
| NoOp                         (* () => {} *)
| HostCallback (tag : string). (* a function of the host application *)

Global Instance Callback_eq_dec : EqDecision Callback.
Proof. solve_decision. Defined.

Abbreviation Dispatcher := (gmap string (list (string * Callback))).

(** [dispatch(...types)] *)
Definition dispatch (types : list string) : Dispatcher :=
  list_to_map ((fun t => (t, [])) <$> types).

(** d3-dispatch's [parseTypenames], for one typename: the type is what
    stands before the first dot, the name what stands after it. *)
Fixpoint parseTypename (typename : string) : string * string :=
  match typename with
  | EmptyString => ("", "")
  | String c rest =>
      if Ascii.eqb c "."%char then ("", rest)
      else let '(type, name) := parseTypename rest in (String c type, name)
  end.

Fixpoint remove_named (name : string) (entries : list (string * Callback))
  : list (string * Callback) :=
  match entries with
  | [] => []
  | (n, c) :: rest =>
      if decide (n = name) then rest else (n, c) :: remove_named name rest
  end.

(** d3-dispatch's [set(type, name, callback)]: drop the first entry called
    [name], then push the new one, unless the callback is null. *)
Definition set (entries : list (string * Callback)) (name : string)
    (callback : option Callback) : list (string * Callback) :=
  remove_named name entries ++
  match callback with
  | Some c => [(name, c)]
  | None => []
  end.

(** d3-dispatch's [get(type, name)] *)
Fixpoint get (entries : list (string * Callback)) (name : string)
  : option Callback :=
  match entries with
  | [] => None
  | (n, c) :: rest => if decide (n = name) then Some c else get rest name
  end.

(** [dispatcher.on(typename, callback)], with a callback that is a
    function.  A typename with an empty type sets nothing. *)
Definition on (d : Dispatcher) (typename : string) (callback : Callback)
  : Result Dispatcher :=
  let '(type, name) := parseTypename typename in
  if decide (type = "") then Ok d
  else
    match d !! type with
    | Some entries => Ok (<[type := set entries name (Some callback)]> d)
    | None => Throw (Error ("unknown type: " ++ type))
    end.

(** [dispatcher.on(typename)], the reading form: the callback registered
    under the typename, or [undefined]. *)
Definition on_get (d : Dispatcher) (typename : string)
  : Result (option Callback) :=
  let '(type, name) := parseTypename typename in
  if decide (type = "") then Ok None
  else
    match d !! type with
    | Some entries => Ok (get entries name)
    | None => Throw (Error ("unknown type: " ++ type))
    end.

(** The callbacks that [dispatcher.call(type, that, payload)] invokes, in
    the order of the array; [call] throws on an undeclared type. *)
Definition callbacks (d : Dispatcher) (type : string) : Result (list Callback) :=
  match d !! type with
  | Some entries => Ok (snd <$> entries)
  | None => Throw (Error ("unknown type: " ++ type))
  end.

(** The four event types the component registers on. *)
Definition chart_events : list string :=
  ["legendClick"; "barClick"; "barMouseOver"; "barMouseOut"].

(** [defaultProps.eventDispatcher] *)
Definition defaultDispatcher : Dispatcher := dispatch chart_events.

(** The dispatcher was made with each of [types]. *)
Definition declares (d : Dispatcher) (types : list string) : bool :=
  forallb (fun t => bool_decide (is_Some (d !! t))) types.

(** [set] keeps at most one entry per name in an array, so every dispatcher
    that was built by [dispatch] and changed by [on] has names that are
    unique within each type.  A valid dispatcher for the chart declares the
    four types and has unique names in each of them. *)
Definition valid_dispatcher (d : Dispatcher) : bool :=
  forallb
    (fun t =>
       match d !! t with
       | Some entries => bool_decide (NoDup entries.*1)
       | None => false
       end)
    chart_events.

(** Names are unique within every array of the dispatcher. *)
Definition unique_names (d : Dispatcher) : Prop :=
  forall t entries, d !! t = Some entries -> NoDup entries.*1.

Arguments declares : simpl never.
Arguments valid_dispatcher : simpl never.

(** A dispatcher as the host hands it over: whatever is registered for the
    four chart events is a function of the host, no arrow of a chart. *)
Definition is_host (c : Callback) : bool :=
  match c with
  | HostCallback _ => true
  | SetStateData | NoOp => false
  end.

Definition host_only (d : Dispatcher) : bool :=
  forallb
    (fun t =>
       match d !! t with
       | Some entries => forallb is_host entries.*2
       | None => true
       end)
    chart_events.

Arguments host_only : simpl never.

(** The state-replacing arrow is made in [updateChart] only, and
    registered there under the bare name [legendClick]: among the chart
    events, a dispatcher holds it under that typename or not at all.  That
    is so for a dispatcher as [dispatch] makes it, and it stays so when a
    host registers its functions and when a chart renders. *)
Definition arrow_in_place (type : string) (entry : string * Callback) : bool :=
  match entry.2 with
  | SetStateData => bool_decide (type = "legendClick" /\ entry.1 = "")
  | NoOp | HostCallback _ => true
  end.

Definition arrows_in_place (d : Dispatcher) : bool :=
  forallb
    (fun t =>
       match d !! t with
       | Some entries => forallb (arrow_in_place t) entries
       | None => true
       end)
    chart_events.

Arguments arrows_in_place : simpl never.

(** The first of the four chart events, in the order [updateChart]
    registers them, that the dispatcher was not made with. *)
Definition first_undeclared (d : Dispatcher) : option string :=
  List.find (fun t => negb (bool_decide (is_Some (d !! t)))) chart_events.

(** The dispatcher after an [on(type, callback)] that does not throw. *)
Definition register (type : string) (callback : Callback) (d : Dispatcher)
  : Dispatcher :=
  match d !! type with
  | Some entries => <[type := set entries "" (Some callback)]> d
  | None => d
  end.

(** The callback that [updateChart] registers for each event type. *)
Definition handler_of (type : string) : Callback :=
  if decide (type = "legendClick") then SetStateData else NoOp.

(** The dispatcher after the four registrations of [updateChart]. *)
Definition registered (d : Dispatcher) : Dispatcher :=
  register "barMouseOut" NoOp
    (register "barMouseOver" NoOp
       (register "barClick" NoOp
          (register "legendClick" SetStateData d))).

(** ** State *)

(** The [color] field of the state: the initial [() => undefined], or the
    scale that [scales.calculateColorScale] returned. *)
Inductive Color (ColorFn : Type) :=
| ConstUndefined
| Computed (f : ColorFn).

Arguments ConstUndefined {ColorFn}.
Arguments Computed {ColorFn} f.

Module State.
Record t (ColorFn : Type) := mk {
  data : list ChartData.t;
  width : Z;
  color : Color ColorFn;
}.
Arguments mk {ColorFn}.
Arguments data {ColorFn}.
Arguments width {ColorFn}.
Arguments color {ColorFn}.
End State.

(** ** Derived layout (the result of [chart.calculateChartValues]) *)

Module ChartValues.
Record t (Scale : Type) := mk {
  w : Z;
  h : Z;
  m : Margin.t;
  x : Scale;
  y : Scale;
}.
Arguments mk {Scale}.
Arguments w {Scale}.
Arguments h {Scale}.
Arguments m {Scale}.
Arguments x {Scale}.
Arguments y {Scale}.
End ChartValues.

(** ** The element tree that [render] returns *)

Module NoData.
Record t := mk { width : Z; height : Z; noDataMessage : string }.
End NoData.

Module Legend.
Record t (ColorFn : Type) := mk {
  data : list ChartData.t;
  width : Z;
  margin : Margin.t;
  color : Color ColorFn;
  showLegend : bool;
}.
Arguments mk {ColorFn}.
Arguments data {ColorFn}.
Arguments width {ColorFn}.
Arguments margin {ColorFn}.
Arguments color {ColorFn}.
Arguments showLegend {ColorFn}.
End Legend.

Module Axis.
Record t (Scale : Type) := mk {
  data : list ChartData.t;
  width : Z;
  height : Z;
  margin : Margin.t;
  x : Scale;
  y : Scale;
  axisConfig : AxisConfig.t;
  showGridX : bool;
  showGridY : bool;
  tickFormat : string;
}.
Arguments mk {Scale}.
Arguments data {Scale}.
Arguments width {Scale}.
Arguments height {Scale}.
Arguments margin {Scale}.
Arguments x {Scale}.
Arguments y {Scale}.
Arguments axisConfig {Scale}.
Arguments showGridX {Scale}.
Arguments showGridY {Scale}.
Arguments tickFormat {Scale}.
End Axis.

Module Bars.
Record t (ColorFn Scale : Type) := mk {
  data : list ChartData.t;
  height : Z;
  x : Scale;
  y : Scale;
  color : Color ColorFn;
  barSpacing : Q;
  animate : bool;
  duration : Z;
  delay : Z;
}.
Arguments mk {ColorFn Scale}.
Arguments data {ColorFn Scale}.
Arguments height {ColorFn Scale}.
Arguments x {ColorFn Scale}.
Arguments y {ColorFn Scale}.
Arguments color {ColorFn Scale}.
Arguments barSpacing {ColorFn Scale}.
Arguments animate {ColorFn Scale}.
Arguments duration {ColorFn Scale}.
Arguments delay {ColorFn Scale}.
End Bars.

(** A value in child position of the [<svg>] element.  The two JSX
    expressions [{!data.length && <NoData/>}] and
    [{data.length && <g className="wrapper"/>}] evaluate to an element, to
    [false], or to the number [data.length]. *)
Inductive Child (ColorFn Scale : Type) :=
| CFalse
| CNumber (n : nat)
| CNoData (e : NoData.t)
| CWrapper (legend : Legend.t ColorFn) (axis : Axis.t Scale)
    (bars : Bars.t ColorFn Scale).

Arguments CFalse {ColorFn Scale}.
Arguments CNumber {ColorFn Scale} n.
Arguments CNoData {ColorFn Scale} e.
Arguments CWrapper {ColorFn Scale} legend axis bars.

(** What [updateChart] writes on the svg node through d3-selection: the
    [width] and [height] attributes and the [translate(left, top)] of the
    wrapper. *)
Module SvgAttrs.
Record t := mk { width : Z; height : Z; translate : Z * Z }.
End SvgAttrs.

(** ** utils/chart: series metadata *)

(** Modelled from the spec: [chart.mapSeriesToData] (utils/chart.js) is not
    under src/.  The spec has render "attach derived per-series index/key
    metadata to the data", and the call site says "Add series index and key
    to each data point for reference".  This is what a point of the [i]-th
    series, whose key is [k], looks like afterwards. *)
Definition tag_point (i : nat) (k : string) (pt : Point.t) : Point.t :=
  Point.mk (Point.x pt) (Point.y pt) (Some i) (Some k).

(** Modelled from the spec: the [i]-th series after [chart.mapSeriesToData];
    its name and its [disabled] flag are as before. *)
Definition tag_series (i : nat) (d : ChartData.t) : ChartData.t :=
  ChartData.mk (ChartData.key d)
    (tag_point i (ChartData.key d) <$> ChartData.values d)
    (ChartData.disabled d).

(** Modelled from the spec: [chart.mapSeriesToData], which is not under
    src/.  The function writes into the objects it is given (its caller
    drops the return value); here it returns the array as it is
    afterwards. *)
Definition mapSeriesToData (data : list ChartData.t) : list ChartData.t :=
  imap tag_series data.

(** ** utils/scales and utils/chart: reference instances

    The component below is parameterised by the colour and layout helpers.
    The two definitions here give them a concrete reading, used where a
    statement is evaluated on concrete props. *)

(** Modelled from the spec: the result of [scales.calculateColorScale]
    (utils/scales.js, not under src/).  The spec's data model has the
    colour scale "either a two-color gradient specification or a discrete
    category color scheme, resolved once per data-length"; the scale is
    kept as that description instead of as a function to colours. *)
Inductive ColorMapping :=
| Gradient (domainMax : nat) (from to : string)
| Scheme (colors : list string).

(** Modelled from the spec: [scales.calculateColorScale], which is not
    under src/: the gradient between the two colours of [colorScale] over
    the data length when [useColorScale] is on, the category scheme
    otherwise. *)
Definition calculateColorScale_spec (length : nat) (useColorScale : bool)
    (colorScale : ColorScale.t) (colorSchemeCategory : list string)
  : ColorMapping :=
  if useColorScale
  then Gradient length (ColorScale.from colorScale) (ColorScale.to colorScale)
  else Scheme colorSchemeCategory.

(** Modelled from the spec: a scale as [chart.calculateChartValues]
    (utils/chart.js, not under src/) returns it, kept as its type, the
    domain values it is built from and its pixel range. *)
Module ScaleSpec.
Record t := mk {
  type : string;
  categories : list string;
  numbers : list Z;
  range : Z * Z;
}.
End ScaleSpec.

(** The points of all series, in order. *)
Definition points (data : list ChartData.t) : list Point.t :=
  data ≫= ChartData.values.

(** Modelled from the spec: [chart.calculateChartValues], which is not
    under src/.  The spec's derived layout is "plot width/height after
    margin subtraction, and two scale functions (domain values to pixel
    positions) for the two axes", categorical for x and numeric for y. *)
Definition calculateChartValues_spec (data : list ChartData.t)
    (width height : Z) (margin : Margin.t) (xScaleType yScaleType : string)
  : ChartValues.t ScaleSpec.t :=
  let w := width - Margin.left margin - Margin.right margin in
  let h := height - Margin.top margin - Margin.bottom margin in
  {| ChartValues.w := w;
     ChartValues.h := h;
     ChartValues.m := margin;
     ChartValues.x := ScaleSpec.mk xScaleType (Point.x <$> points data) [] (0, w);
     ChartValues.y := ScaleSpec.mk yScaleType [] (Point.y <$> points data) (h, 0) |}.

(** ** Sample charts *)

Definition sales : ChartData.t :=
  ChartData.mk "Sales"
    [Point.mk "Q1" 30 None None; Point.mk "Q2" 45 None None] None.

(** A series the legend has switched off. *)
Definition returns : ChartData.t :=
  ChartData.mk "Returns"
    [Point.mk "Q1" 4 None None; Point.mk "Q2" 7 None None] (Some true).

(** The default props with a category scheme instead of the gradient. *)
Definition schemeProps (data : option (list ChartData.t)) : Props.t :=
  {| Props.data := data;
     Props.width := 600;
     Props.height := 200;
     Props.margin := Margin.mk 20 40 30 10;
     Props.showLegend := true;
     Props.axisConfig :=
       AxisConfig.mk true true "X Axis" "right" true true "Y Axis" "top";
     Props.showGridX := true;
     Props.showGridY := true;
     Props.xScaleType := "band";
     Props.yScaleType := "linear";
     Props.tickFormat := ".0f";
     Props.useColorScale := false;
     Props.colorScale := ColorScale.mk "#008793" "#00bf72";
     Props.colorSchemeCategory := ["#1f77b4"; "#ff7f0e"];
     Props.barSpacing := (5 # 100)%Q;
     Props.animate := true;
     Props.duration := 500;
     Props.delay := 50;
     Props.fluid := true;
     Props.noDataMessage := "No Data Available." |}.

(** The default props with a fixed width. *)
Definition fixedProps (data : option (list ChartData.t)) : Props.t :=
  {| Props.data := data;
     Props.width := 600;
     Props.height := 200;
     Props.margin := Margin.mk 20 40 30 10;
     Props.showLegend := true;
     Props.axisConfig :=
       AxisConfig.mk true true "X Axis" "right" true true "Y Axis" "top";
     Props.showGridX := true;
     Props.showGridY := true;
     Props.xScaleType := "band";
     Props.yScaleType := "linear";
     Props.tickFormat := ".0f";
     Props.useColorScale := true;
     Props.colorScale := ColorScale.mk "#008793" "#00bf72";
     Props.colorSchemeCategory := [];
     Props.barSpacing := (5 # 100)%Q;
     Props.animate := true;
     Props.duration := 500;
     Props.delay := 50;
     Props.fluid := false;
     Props.noDataMessage := "No Data Available." |}.

(** A dispatcher on which the host has put its own callbacks: one under the
    bare name [legendClick], one under [legendClick.log], one under the
    bare name [barClick]. *)
Definition hostDispatcher : Dispatcher :=
  let registrations :=
    d1 ← on defaultDispatcher "legendClick" (HostCallback "onLegend");
    d2 ← on d1 "legendClick.log" (HostCallback "log");
    on d2 "barClick" (HostCallback "onBar") in
  match registrations with
  | Ok d => d
  | Throw _ => defaultDispatcher
  end.

(** ** The resize listener

    [window.addEventListener] keeps one entry per type and function and
    drops a second registration of the same pair; [removeEventListener]
    takes the entry out.  [this.updateDimensions] is a class property, one
    function per chart for the life of the chart, so the function that
    [componentWillUnmount] removes is the one [componentDidMount] added. *)

Inductive Listener :=
| UpdateDimensions (chart : nat)   (* this.updateDimensions of a chart *)
| HostListener (tag : string).     (* any other function *)

Global Instance Listener_eq_dec : EqDecision Listener.
Proof. solve_decision. Defined.

Abbreviation Window := (list (string * Listener)).

Definition addEventListener (w : Window) (type : string) (l : Listener)
  : Window :=
  if decide ((type, l) ∈ w) then w else w ++ [(type, l)].

Fixpoint removeEventListener (w : Window) (type : string) (l : Listener)
  : Window :=
  match w with
  | [] => []
  | e :: rest =>
      if decide (e = (type, l)) then rest
      else e :: removeEventListener rest type l
  end.

(** The first statement of [componentDidMount], for the chart [k]. *)
Definition listen (k : nat) (w : Window) : Window :=
  addEventListener w "resize" (UpdateDimensions k).

(** [componentWillUnmount], for the chart [k]. *)
Definition componentWillUnmount (k : nat) (w : Window) : Window :=
  removeEventListener w "resize" (UpdateDimensions k).

(** ** The svg node

    [updateChart] writes through [select(this.svg)].  The ref [this.svg] is
    set when React commits a render, so during the first render it is
    still undefined and the d3 selection is empty: nothing is written.
    From the second render on, the chain writes [width] and [height] on the
    svg node and the [transform] on the wrapper that the last commit left
    in the tree, if it left one.  React itself sets none of the three. *)

Module SvgNode.
Record t := mk {
  size : option (Z * Z);            (* the width and height attributes *)
  wrapper : option (option (Z * Z)) (* the wrapper, if any, and its translate *)
}.
End SvgNode.

(** The d3-selection chain of [updateChart] on [this.svg]. *)
Definition write_attrs (attrs : SvgAttrs.t) (svg : option SvgNode.t)
  : option SvgNode.t :=
  match svg with
  | None => None
  | Some node =>
      Some
        {| SvgNode.size := Some (SvgAttrs.width attrs, SvgAttrs.height attrs);
           SvgNode.wrapper :=
             match SvgNode.wrapper node with
             | Some _ => Some (Some (SvgAttrs.translate attrs))
             | None => None
             end |}
  end.

(** ** One dispatcher for several charts

    [defaultProps.eventDispatcher] is one object, made when the class is
    defined; every chart that is not given a dispatcher of its own
    registers on it.  The arrows that [updateChart] registers close over
    [this], so on a dispatcher that several charts use, a callback is an
    arrow of one of the charts or a function of the host.  The registry is
    the same d3-dispatch as above, holding such closures. *)
Module Shared.

Inductive Closure :=
| SetStateDataOf (chart : nat)   (* d => this.setState({ data: d }) *)
| NoOpOf (chart : nat)           (* () => {} *)
| HostFunction (tag : string).   (* a function of the host application *)

(** The callback without the chart it belongs to. *)
Definition erase_closure (c : Closure) : Callback :=
  match c with
  | SetStateDataOf _ => SetStateData
  | NoOpOf _ => NoOp
  | HostFunction tag => HostCallback tag
  end.

(** The closure of a chart, as opposed to a function of the host. *)
Definition of_chart (c : Closure) : bool :=
  match c with
  | SetStateDataOf _ | NoOpOf _ => true
  | HostFunction _ => false
  end.

(** [dispatch(...types)] *)
Definition dispatch (types : list string)
  : gmap string (list (string * Closure)) :=
  list_to_map ((fun t => (t, [])) <$> types).

(** d3-dispatch's [set(type, name, callback)] and [on], as above, on
    arrays of closures. *)
Fixpoint remove_named (name : string) (entries : list (string * Closure))
  : list (string * Closure) :=
  match entries with
  | [] => []
  | (n, c) :: rest =>
      if decide (n = name) then rest else (n, c) :: remove_named name rest
  end.

Definition set (entries : list (string * Closure)) (name : string)
    (callback : option Closure) : list (string * Closure) :=
  remove_named name entries ++
  match callback with
  | Some c => [(name, c)]
  | None => []
  end.

Definition on (d : gmap string (list (string * Closure)))
    (typename : string) (callback : Closure)
  : Result (gmap string (list (string * Closure))) :=
  let '(type, name) := parseTypename typename in
  if decide (type = "") then Ok d
  else
    match d !! type with
    | Some entries => Ok (<[type := set entries name (Some callback)]> d)
    | None => Throw (Error ("unknown type: " ++ type))
    end.

(** The four [on] calls of [updateChart], run by the chart [k]. *)
Definition updateChart_on (k : nat) (d : gmap string (list (string * Closure)))
  : Result (gmap string (list (string * Closure))) :=
  d1 ← on d "legendClick" (SetStateDataOf k);
  d2 ← on d1 "barClick" (NoOpOf k);
  d3 ← on d2 "barMouseOver" (NoOpOf k);
  on d3 "barMouseOut" (NoOpOf k).

(** The closure that the [updateChart] of the chart [k] registers for each
    event type. *)
Definition closure_of (k : nat) (type : string) : Closure :=
  if decide (type = "legendClick") then SetStateDataOf k else NoOpOf k.

(** The dispatcher as a single chart sees it. *)
Definition erase_entry (entry : string * Closure) : string * Callback :=
  (entry.1, erase_closure entry.2).

Definition erase (d : gmap string (list (string * Closure))) : Dispatcher :=
  (fun entries : list (string * Closure) => erase_entry <$> entries) <$> d.

(** The four types are declared, with unique names in each. *)
Definition valid (d : gmap string (list (string * Closure))) : bool :=
  forallb
    (fun t =>
       match d !! t with
       | Some entries => bool_decide (NoDup entries.*1)
       | None => false
       end)
    chart_events.

(** The arrows of charts are registered by [updateChart] only, which puts
    them under the bare event names. *)
Definition arrows_bare (d : gmap string (list (string * Closure))) : bool :=
  forallb
    (fun t =>
       match d !! t with
       | Some entries =>
           forallb
             (fun entry => implb (of_chart entry.2) (bool_decide (entry.1 = "")))
             entries
       | None => true
       end)
    chart_events.

End Shared.

Arguments Shared.valid : simpl never.
Arguments Shared.arrows_bare : simpl never.

(** The dispatcher of [defaultProps] on a page where the host listens under
    [legendClick.log] and the chart 0 has rendered. *)
Definition pageDispatcher : gmap string (list (string * Shared.Closure)) :=
  let registrations :=
    d ← Shared.on (Shared.dispatch chart_events) "legendClick.log"
          (Shared.HostFunction "log");
    Shared.updateChart_on 0 d in
  match registrations with
  | Ok d => d
  | Throw _ => Shared.dispatch chart_events
  end.

(** ** The component *)

Section BarChart.

(** The two helpers of utils/ that compute the colour scale and the layout
    are not under src/; the component is verified for every such pair of
    total functions. *)
Variables ColorFn Scale : Type.

Variable calculateColorScale :
  nat -> bool -> ColorScale.t -> list string -> ColorFn.

Variable calculateChartValues :
  list ChartData.t -> Z -> Z -> Margin.t -> string -> string ->
  ChartValues.t Scale.

Local Abbreviation State := (State.t ColorFn).
Local Abbreviation Child := (Child ColorFn Scale).

Definition set_data (s : State) (data : list ChartData.t) : State :=
  State.mk data (State.width s) (State.color s).

Definition set_width (s : State) (width : Z) : State :=
  State.mk (State.data s) width (State.color s).

Definition set_color (s : State) (color : Color ColorFn) : State :=
  State.mk (State.data s) (State.width s) color.

(** The class field [state = { ... }], evaluated by the constructor.  The
    state's array is the prop's array itself, so the metadata that a render
    writes lands in both; after the constructor the component reads the
    [data] prop once more, for its length, before the first render. *)
Definition initial_state (p : Props.t) : State :=
  {| State.data := match Props.data p with Some d => d | None => [] end;
     State.width := if Props.fluid p then 0 else Props.width p;
     State.color := ConstUndefined |}.

(** [componentWillMount]: [data.length] is read from the prop, not from the
    state. *)
Definition componentWillMount (p : Props.t) (s : State) : Result State :=
  match Props.data p with
  | None => Throw (TypeError "Cannot read property 'length' of undefined")
  | Some data =>
      let color :=
        calculateColorScale (length data) (Props.useColorScale p)
          (Props.colorScale p) (Props.colorSchemeCategory p) in
      Ok (set_color s (Computed color))
  end.

(** [(this.barChart && this.barChart.offsetWidth) || width], where
    [barChart] is [None] while the ref is null and the [offsetWidth] of the
    container otherwise. *)
Definition measured_or (barChart : option Z) (width : Z) : Z :=
  match barChart with
  | Some offsetWidth => if (offsetWidth =? 0)%Z then width else offsetWidth
  | None => width
  end.

(** [updateDimensions] *)
Definition updateDimensions (p : Props.t) (barChart : option Z) (s : State)
  : State :=
  if Props.fluid p
  then set_width s (measured_or barChart (Props.width p))
  else s.

(** [updateChart(data, w, h, m)]: the attributes for the svg node, the data
    after [mapSeriesToData], and the dispatcher after the four [on] calls. *)
Definition updateChart (disp : Dispatcher) (data : list ChartData.t)
    (w h : Z) (m : Margin.t)
  : Result (SvgAttrs.t * list ChartData.t * Dispatcher) :=
  let attrs :=
    {| SvgAttrs.width := w + Margin.left m + Margin.right m;
       SvgAttrs.height := h + Margin.top m + Margin.bottom m;
       SvgAttrs.translate := (Margin.left m, Margin.top m) |} in
  let data := mapSeriesToData data in
  d1 ← on disp "legendClick" SetStateData;
  d2 ← on d1 "barClick" NoOp;
  d3 ← on d2 "barMouseOver" NoOp;
  d4 ← on d3 "barMouseOut" NoOp;
  mret (attrs, data, d4).

(** The [{ w, h, m, x, y }] of a render: [chart.calculateChartValues] on the
    series that pass [d => !d.disabled]. *)
Definition render_layout (p : Props.t) (s : State) : ChartValues.t Scale :=
  calculateChartValues (List.filter enabled (State.data s)) (State.width s)
    (Props.height p) (Props.margin p) (Props.xScaleType p)
    (Props.yScaleType p).

Record Rendered := mkRendered {
  rendered_layout : ChartValues.t Scale;
  rendered_state : State;
  rendered_dispatcher : Dispatcher;
  rendered_svg : SvgAttrs.t;
  rendered_children : list Child;
}.

(** [render].  [data] is the state's array both before and after
    [updateChart] wrote the metadata into it, so the children receive the
    array with the metadata.  In [a && b] the result is [a] when [a] is
    falsy: [false] in the first slot, the number [data.length] (which is
    then [0]) in the second. *)
Definition render (p : Props.t) (s : State) (disp : Dispatcher)
  : Result Rendered :=
  let width := State.width s in
  let color := State.color s in
  let cv := render_layout p s in
  let (w, h, m, x, y) := cv in
  '(attrs, data, disp') ← updateChart disp (State.data s) w h m;
  mret {|
    rendered_layout := cv;
    rendered_state := set_data s data;
    rendered_dispatcher := disp';
    rendered_svg := attrs;
    rendered_children :=
      [ if (length data =? 0)%nat
        then CNoData
               {| NoData.width := width;
                  NoData.height := Props.height p;
                  NoData.noDataMessage := Props.noDataMessage p |}
        else CFalse;
        if (length data =? 0)%nat
        then CNumber (length data)
        else CWrapper
               {| Legend.data := data;
                  Legend.width := width;
                  Legend.margin := m;
                  Legend.color := color;
                  Legend.showLegend := Props.showLegend p |}
               {| Axis.data := data;
                  Axis.width := width;
                  Axis.height := h;
                  Axis.margin := m;
                  Axis.x := x;
                  Axis.y := y;
                  Axis.axisConfig := Props.axisConfig p;
                  Axis.showGridX := Props.showGridX p;
                  Axis.showGridY := Props.showGridY p;
                  Axis.tickFormat := Props.tickFormat p |}
               {| Bars.data := data;
                  Bars.height := h;
                  Bars.x := x;
                  Bars.y := y;
                  Bars.color := color;
                  Bars.barSpacing := Props.barSpacing p;
                  Bars.animate := Props.animate p;
                  Bars.duration := Props.duration p;
                  Bars.delay := Props.delay p |} ]
  |}.

(** React mounts nothing for a boolean child and a text node for a number,
    so [{0}] leaves a "0" in the tree. *)
Definition mounts (c : Child) : bool :=
  match c with
  | CFalse => false
  | CNumber _ | CNoData _ | CWrapper _ _ _ => true
  end.

Definition mounted (children : list Child) : list Child :=
  List.filter mounts children.

(** The placeholder elements and the wrapper elements among the children. *)
Definition placeholders (children : list Child) : list NoData.t :=
  children ≫= fun c =>
    match c with
    | CNoData e => [e]
    | CFalse | CNumber _ | CWrapper _ _ _ => []
    end.

Definition wrappers (children : list Child)
  : list (Legend.t ColorFn * Axis.t Scale * Bars.t ColorFn Scale) :=
  children ≫= fun c =>
    match c with
    | CWrapper legend axis bars => [(legend, axis, bars)]
    | CFalse | CNumber _ | CNoData _ => []
    end.

(** *** The mounted instance and its events *)

Record Instance := mkInstance {
  props : Props.t;
  state : State;
  dispatcher : Dispatcher;
}.

(** What a registered callback does to the component's state when the
    dispatcher calls it.  A host callback has no access to [setState]; the
    host reaches the component through its props only. *)
Definition run_callback (c : Callback) (payload : list ChartData.t)
    (s : State) : State :=
  match c with
  | SetStateData => set_data s payload
  | NoOp => s
  | HostCallback _ => s
  end.

(** [eventDispatcher.call(type, this, payload)] *)
Definition call (disp : Dispatcher) (type : string)
    (payload : list ChartData.t) (s : State) : Result State :=
  cbs ← callbacks disp type;
  mret (foldl (fun s c => run_callback c payload s) s cbs).

(** The first render: constructor, [componentWillMount], [render]. *)
Definition first_render (p : Props.t) (disp : Dispatcher) : Result Rendered :=
  s ← componentWillMount p (initial_state p);
  render p s disp.

(** [componentDidMount], after the refs are attached: [updateDimensions],
    and the render that follows its [setState] when [fluid] is on. *)
Definition componentDidMount (p : Props.t) (barChart : option Z)
    (r : Rendered) : Result Rendered :=
  if Props.fluid p
  then render p (updateDimensions p barChart (rendered_state r))
         (rendered_dispatcher r)
  else Ok r.

(** Mounting with the container measuring [barChart]. *)
Definition mount (p : Props.t) (disp : Dispatcher) (barChart : option Z)
  : Result Instance :=
  r1 ← first_render p disp;
  r2 ← componentDidMount p barChart r1;
  mret (mkInstance p (rendered_state r2) (rendered_dispatcher r2)).

(** What can happen to a mounted chart: the window is resized while the
    container measures [barChart]; the host passes new props, either with
    the dispatcher object it passed before ([ReceiveProps]) or with another
    dispatcher object, given in the state in which the host hands it over
    ([ReceiveEventDispatcher]); a child (or the host) calls the chart's
    dispatcher. *)
Inductive Event :=
| Resize (barChart : option Z)
| ReceiveProps (p : Props.t)
| ReceiveEventDispatcher (p : Props.t) (eventDispatcher : Dispatcher)
| Dispatch (type : string) (payload : list ChartData.t).

(** The children and the host fire the four chart events only, and a
    dispatcher the host passes was made with them. *)
Definition valid_event (e : Event) : bool :=
  match e with
  | Dispatch type _ => bool_decide (type ∈ chart_events)
  | ReceiveEventDispatcher _ eventDispatcher =>
      declares eventDispatcher chart_events
  | Resize _ | ReceiveProps _ => true
  end.

(** The component has no [componentWillReceiveProps] and no
    [componentDidUpdate]: new props replace [this.props] and nothing else.
    [updateChart] reads [this.props.eventDispatcher] at every render, so
    the render that follows new props registers on the dispatcher of
    those props. *)
Definition handle (i : Instance) (e : Event)
  : Result (Props.t * State * Dispatcher) :=
  match e with
  | Resize barChart =>
      Ok (props i, updateDimensions (props i) barChart (state i),
          dispatcher i)
  | ReceiveProps p => Ok (p, state i, dispatcher i)
  | ReceiveEventDispatcher p eventDispatcher =>
      Ok (p, state i, eventDispatcher)
  | Dispatch type payload =>
      s ← call (dispatcher i) type payload (state i);
      mret (props i, s, dispatcher i)
  end.

(** One event and the render that follows it.  A render that React skips for
    a [PureComponent] whose props and state are unchanged would have left
    state and dispatcher as they are; see [render_again] below. *)
Definition step (i : Instance) (e : Event) : Result Instance :=
  '(p, s, disp) ← handle i e;
  r ← render p s disp;
  mret (mkInstance p (rendered_state r) (rendered_dispatcher r)).

Fixpoint run (i : Instance) (es : list Event) : Result Instance :=
  match es with
  | [] => Ok i
  | e :: es => i' ← step i e; run i' es
  end.

(** The data on display after a run of events: the payload of the last
    [legendClick], or the data the run started with. *)
Definition displayed_after (e : Event) (data : list ChartData.t)
  : list ChartData.t :=
  match e with
  | Dispatch type payload =>
      if decide (type = "legendClick") then payload else data
  | Resize _ | ReceiveProps _ | ReceiveEventDispatcher _ _ => data
  end.

Definition displayed (es : list Event) (data : list ChartData.t)
  : list ChartData.t :=
  foldl (fun data e => displayed_after e data) data es.

(** The dispatcher of the chart after an event, before the render. *)
Definition dispatcher_after (e : Event) (d : Dispatcher) : Dispatcher :=
  match e with
  | ReceiveEventDispatcher _ eventDispatcher => eventDispatcher
  | Resize _ | ReceiveProps _ | Dispatch _ _ => d
  end.

(** The dispatcher of the latest props after a run of events. *)
Definition current_dispatcher (es : list Event) (d : Dispatcher)
  : Dispatcher :=
  foldl (fun d e => dispatcher_after e d) d es.

(** A chart event, or a dispatcher with unique names and the
    state-replacing arrow in its place, or any resize or props. *)
Definition settled_event (e : Event) : bool :=
  match e with
  | Dispatch type _ => bool_decide (type ∈ chart_events)
  | ReceiveEventDispatcher _ eventDispatcher =>
      valid_dispatcher eventDispatcher && arrows_in_place eventDispatcher
  | Resize _ | ReceiveProps _ => true
  end.

(** *** Several charts on one dispatcher *)

Record Page := mkPage {
  charts : list (Props.t * State);
  shared : gmap string (list (string * Shared.Closure));
}.

(** The [k]-th chart of the page renders: [render] as above, with the
    arrows that its [updateChart] registers closing over this chart. *)
Definition render_chart (k : nat) (pg : Page) : Result Page :=
  match charts pg !! k with
  | None => Ok pg
  | Some (p, s) =>
      r ← render p s (Shared.erase (shared pg));
      d ← Shared.updateChart_on k (shared pg);
      mret (mkPage (<[k := (p, rendered_state r)]> (charts pg)) d)
  end.

(** What a closure does to the charts of the page when the dispatcher
    calls it: [setState] goes to the chart of the arrow. *)
Definition run_closure (payload : list ChartData.t)
    (cs : list (Props.t * State)) (c : Shared.Closure)
  : list (Props.t * State) :=
  match c with
  | Shared.SetStateDataOf k =>
      match cs !! k with
      | Some (p, s) => <[k := (p, set_data s payload)]> cs
      | None => cs
      end
  | Shared.NoOpOf _ | Shared.HostFunction _ => cs
  end.

(** [eventDispatcher.call('legendClick', that, payload)] on the shared
    dispatcher, from the legend of whichever chart. *)
Definition legend_click (payload : list ChartData.t) (pg : Page)
  : Result Page :=
  match shared pg !! "legendClick" with
  | Some entries =>
      Ok (mkPage (foldl (run_closure payload) (charts pg) entries.*2)
            (shared pg))
  | None => Throw (Error "unknown type: legendClick")
  end.

(** *** Resize events through the window *)

(** What a listener of the window does to the state of the chart [k]. *)
Definition run_listener (k : nat) (p : Props.t) (barChart : option Z)
    (s : State) (entry : string * Listener) : State :=
  match entry with
  | (type, UpdateDimensions k') =>
      if decide (type = "resize" /\ k' = k)
      then updateDimensions p barChart s
      else s
  | (_, HostListener _) => s
  end.

(** The window fires [resize] while the container of the chart [k]
    measures [barChart]. *)
Definition window_resize (w : Window) (k : nat) (p : Props.t)
    (barChart : option Z) (s : State) : State :=
  foldl (run_listener k p barChart) s w.

(** *** Renders as seen on the svg node *)

(** React's commit of the children of a render: the svg node is there
    afterwards; a wrapper that stays keeps its attributes, a new one has
    none, and without a wrapper among the children there is none. *)
Definition commit (children : list Child) (svg : option SvgNode.t)
  : option SvgNode.t :=
  let node :=
    match svg with
    | Some node => node
    | None => SvgNode.mk None None
    end in
  Some
    {| SvgNode.size := SvgNode.size node;
       SvgNode.wrapper :=
         match wrappers children with
         | [] => None
         | _ :: _ =>
             match SvgNode.wrapper node with
             | Some transform => Some transform
             | None => Some None
             end
         end |}.

(** One render and its commit, as seen on the svg node. *)
Definition render_svg (svg : option SvgNode.t) (r : Rendered)
  : option SvgNode.t :=
  commit (rendered_children r) (write_attrs (rendered_svg r) svg).

(** The svg node after the mount.  React renders a [PureComponent] again
    after [setState] only if the new state differs from the old one, here
    in its width. *)
Definition mount_svg (p : Props.t) (disp : Dispatcher) (barChart : option Z)
  : Result (option SvgNode.t) :=
  r1 ← first_render p disp;
  let svg1 := render_svg None r1 in
  r2 ← componentDidMount p barChart r1;
  mret
    (if Props.fluid p
        && negb (State.width (rendered_state r2)
                 =? State.width (rendered_state r1))%Z
     then render_svg svg1 r2
     else svg1).

(** ** Properties *)

(** *** The dispatcher *)

Lemma remove_named_subseteq name (es : list (string * Callback)) :
  (remove_named name es).*1 ⊆ es.*1.
Proof.
  induction es as [|[n c] es IH]; simpl; [done|].
  case_decide; simpl.
  - intros k Hk. by apply elem_of_cons; right.
  - intros k. rewrite !elem_of_cons. intros [->|Hk]; auto.
Qed.

Lemma remove_named_NoDup name (es : list (string * Callback)) :
  NoDup es.*1 -> NoDup (remove_named name es).*1.
Proof.
  induction es as [|[n c] es IH]; simpl; [done|].
  rewrite NoDup_cons. intros [Hn Hes].
  case_decide; [done|].
  simpl. apply NoDup_cons. split; [|auto].
  intros Hin. apply Hn. by apply (remove_named_subseteq name).
Qed.

Lemma remove_named_absent name (es : list (string * Callback)) :
  NoDup es.*1 -> name ∉ (remove_named name es).*1.
Proof.
  induction es as [|[n c] es IH]; simpl.
  - intros _. apply not_elem_of_nil.
  - rewrite NoDup_cons. intros [Hn Hes].
    case_decide; subst; [done|].
    simpl. rewrite not_elem_of_cons. auto.
Qed.

Lemma remove_named_last name c (es : list (string * Callback)) :
  name ∉ es.*1 -> remove_named name (es ++ [(name, c)]) = es.
Proof.
  induction es as [|[n c'] es IH]; simpl.
  - intros _. by case_decide.
  - rewrite not_elem_of_cons. intros [Hne Hes].
    case_decide; [congruence|]. by rewrite IH.
Qed.

Lemma get_last name c (es : list (string * Callback)) :
  name ∉ es.*1 -> get (es ++ [(name, c)]) name = Some c.
Proof.
  induction es as [|[n c'] es IH]; simpl.
  - intros _. by case_decide.
  - rewrite not_elem_of_cons. intros [Hne Hes].
    case_decide; [congruence|]. auto.
Qed.

Lemma get_remove_named_ne name name' (es : list (string * Callback)) :
  name ≠ name' -> get (remove_named name es) name' = get es name'.
Proof.
  intros Hne. induction es as [|[n c] es IH]; simpl; [done|].
  repeat (case_decide; simpl); subst; try congruence.
Qed.

Lemma get_app_ne name name' c (es : list (string * Callback)) :
  name ≠ name' -> get (es ++ [(name, c)]) name' = get es name'.
Proof.
  intros Hne. induction es as [|[n c'] es IH]; simpl.
  - by case_decide.
  - by case_decide.
Qed.

(** Set, then read: the callback just set is the one found. *)
Lemma get_set_eq name c (es : list (string * Callback)) :
  NoDup es.*1 -> get (set es name (Some c)) name = Some c.
Proof.
  intros Hes. unfold set. by apply get_last, remove_named_absent.
Qed.

(** Entries under other names are kept. *)
Lemma get_set_ne name name' c (es : list (string * Callback)) :
  name ≠ name' -> get (set es name (Some c)) name' = get es name'.
Proof.
  intros Hne. unfold set.
  by rewrite get_app_ne, get_remove_named_ne.
Qed.

Lemma set_NoDup name c (es : list (string * Callback)) :
  NoDup es.*1 -> NoDup (set es name (Some c)).*1.
Proof.
  intros Hes. unfold set. rewrite fmap_app. simpl.
  apply NoDup_app. split; [by apply remove_named_NoDup|].
  split; [|apply NoDup_singleton].
  intros n Hn. rewrite list_elem_of_singleton. intros Heq. subst.
  by eapply remove_named_absent.
Qed.

Lemma set_set name c (es : list (string * Callback)) :
  NoDup es.*1 -> set (set es name (Some c)) name (Some c) = set es name (Some c).
Proof.
  intros Hes. unfold set.
  by rewrite remove_named_last by by apply remove_named_absent.
Qed.

(** The callback of the component is the last one of its type's array. *)
Lemma set_snd_last name c (es : list (string * Callback)) :
  exists cbs, (set es name (Some c)).*2 = (cbs ++ [c])%list.
Proof. unfold set. rewrite fmap_app. by eexists. Qed.

Lemma chart_events_cases t :
  t ∈ chart_events <->
  t = "legendClick" \/ t = "barClick" \/ t = "barMouseOver" \/
  t = "barMouseOut".
Proof.
  unfold chart_events. rewrite !elem_of_cons, elem_of_nil. tauto.
Qed.

Lemma parseTypename_chart_event t :
  t ∈ chart_events -> parseTypename t = (t, "") /\ t ≠ "".
Proof.
  rewrite chart_events_cases. intros [-> | [-> | [-> | ->]]]; by split.
Qed.

Lemma declares_spec (d : Dispatcher) types :
  declares d types = true <-> forall t, t ∈ types -> is_Some (d !! t).
Proof.
  unfold declares. rewrite forallb_forall. split.
  - intros H t Ht. apply list_elem_of_In, H in Ht.
    by apply bool_decide_eq_true in Ht.
  - intros H t Ht. apply bool_decide_eq_true, H. by apply list_elem_of_In.
Qed.

Lemma valid_dispatcher_spec (d : Dispatcher) :
  valid_dispatcher d = true <->
  forall t, t ∈ chart_events -> exists es, d !! t = Some es /\ NoDup es.*1.
Proof.
  unfold valid_dispatcher. rewrite forallb_forall. split.
  - intros H t Ht. apply list_elem_of_In, H in Ht.
    destruct (d !! t) as [es|]; [|done].
    exists es. split; [done|]. by apply bool_decide_eq_true in Ht.
  - intros H t Ht. apply list_elem_of_In, H in Ht as (es & -> & Hes).
    by apply bool_decide_eq_true.
Qed.

Lemma valid_dispatcher_declares (d : Dispatcher) :
  valid_dispatcher d = true -> declares d chart_events = true.
Proof.
  rewrite valid_dispatcher_spec, declares_spec. intros H t Ht.
  destruct (H t Ht) as (es & -> & _). by eexists.
Qed.

(** Unique names are an invariant of the library: [dispatch] establishes
    it and [on] keeps it. *)
Lemma dispatch_unique_names types : unique_names (dispatch types).
Proof.
  unfold unique_names, dispatch.
  induction types as [|t0 types IH]; intros t es; simpl.
  - by rewrite lookup_empty.
  - rewrite lookup_insert. case_decide.
    + intros [= <-]. constructor.
    + apply IH.
Qed.

Lemma on_unique_names (d d' : Dispatcher) typename c :
  on d typename c = Ok d' -> unique_names d -> unique_names d'.
Proof.
  unfold on. destruct (parseTypename typename) as [type name].
  case_decide; [by intros [= <-]|].
  destruct (d !! type) as [es0|] eqn:Hes0; [|done].
  intros [= <-] Hd t es. rewrite lookup_insert. case_decide.
  - intros [= <-]. apply set_NoDup. by apply (Hd type).
  - apply Hd.
Qed.

Lemma valid_dispatcher_unique (d : Dispatcher) :
  declares d chart_events = true -> unique_names d ->
  valid_dispatcher d = true.
Proof.
  rewrite declares_spec, valid_dispatcher_spec. intros Hdecl Hd t Ht.
  destruct (Hdecl t Ht) as [es Hes]. exists es. split; [done|].
  by apply (Hd t).
Qed.

Lemma lookup_register (d : Dispatcher) t c k :
  register t c d !! k =
  if decide (t = k) then (fun es => set es "" (Some c)) <$> d !! k else d !! k.
Proof.
  unfold register. case_decide; subst.
  - destruct (d !! k) as [es|] eqn:Hk; simpl.
    + by rewrite lookup_insert_eq.
    + done.
  - destruct (d !! t) as [es|]; [|done].
    by rewrite lookup_insert_ne.
Qed.

Lemma on_register (d : Dispatcher) t c :
  t ∈ chart_events -> is_Some (d !! t) -> on d t c = Ok (register t c d).
Proof.
  intros Ht [es Hes]. destruct (parseTypename_chart_event t Ht) as [Hparse Hne].
  unfold on, register. rewrite Hparse, Hes. by case_decide.
Qed.

Lemma on_undeclared (d : Dispatcher) t c :
  t ∈ chart_events -> d !! t = None ->
  on d t c = Throw (Error ("unknown type: " ++ t)).
Proof.
  intros Ht Hd. destruct (parseTypename_chart_event t Ht) as [Hparse Hne].
  unfold on. rewrite Hparse, Hd. by case_decide.
Qed.

(** What [updateChart] leaves under each key of the dispatcher. *)
Lemma lookup_registered (d : Dispatcher) k :
  registered d !! k =
  if bool_decide (k ∈ chart_events)
  then (fun es => set es "" (Some (handler_of k))) <$> d !! k
  else d !! k.
Proof.
  unfold registered. rewrite !lookup_register.
  case_bool_decide as Hk.
  - apply chart_events_cases in Hk. by destruct Hk as [-> | [-> | [-> | ->]]].
  - rewrite chart_events_cases in Hk.
    repeat case_decide; subst; tauto.
Qed.

Lemma registered_declares (d : Dispatcher) types :
  declares d types = true -> declares (registered d) types = true.
Proof.
  rewrite !declares_spec. intros H t Ht.
  destruct (H t Ht) as [es Hes]. rewrite lookup_registered, Hes.
  case_bool_decide; by eexists.
Qed.

Lemma registered_valid (d : Dispatcher) :
  valid_dispatcher d = true -> valid_dispatcher (registered d) = true.
Proof.
  rewrite !valid_dispatcher_spec. intros H t Ht.
  destruct (H t Ht) as (es & Hes & Hnd).
  rewrite lookup_registered, bool_decide_true, Hes by done. simpl.
  eexists. split; [done|]. by apply set_NoDup.
Qed.

(** After the registrations, the entry under the bare event name is the
    component's handler, whatever was there before. *)
Lemma on_get_registered (d : Dispatcher) t :
  valid_dispatcher d = true -> t ∈ chart_events ->
  on_get (registered d) t = Ok (Some (handler_of t)).
Proof.
  intros Hd Ht. rewrite valid_dispatcher_spec in Hd.
  destruct (Hd t Ht) as (es & Hes & Hnd).
  destruct (parseTypename_chart_event t Ht) as [Hparse Hne].
  unfold on_get. rewrite Hparse. case_decide; [done|].
  rewrite lookup_registered, bool_decide_true, Hes by done. simpl.
  by rewrite get_set_eq.
Qed.

(** Entries under a qualified name ([type.name]) are not touched. *)
Lemma on_get_registered_named (d : Dispatcher) typename :
  (parseTypename typename).2 ≠ "" ->
  on_get (registered d) typename = on_get d typename.
Proof.
  unfold on_get. destruct (parseTypename typename) as [type name]. simpl.
  intros Hne. case_decide; [done|].
  rewrite lookup_registered. case_bool_decide; [|done].
  destruct (d !! type) as [es|]; simpl; [|done].
  by rewrite get_set_ne.
Qed.

Lemma registered_idemp (d : Dispatcher) :
  valid_dispatcher d = true -> registered (registered d) = registered d.
Proof.
  intros Hd. rewrite valid_dispatcher_spec in Hd.
  apply map_eq. intros k.
  rewrite (lookup_registered (registered d)).
  case_bool_decide as Hk; [|done].
  destruct (Hd k Hk) as (es & Hes & Hnd).
  rewrite lookup_registered, bool_decide_true, Hes by done. simpl.
  by rewrite set_set.
Qed.

Lemma on_chart_event (d : Dispatcher) t c :
  t ∈ chart_events ->
  on d t c =
  match d !! t with
  | Some _ => Ok (register t c d)
  | None => Throw (Error ("unknown type: " ++ t))
  end.
Proof.
  intros Ht. destruct (d !! t) as [es|] eqn:Hes.
  - by apply on_register.
  - by apply on_undeclared.
Qed.

(** [updateChart] returns exactly when the dispatcher declares the four
    event types. *)
Lemma updateChart_declares (d : Dispatcher) data w h m :
  declares d chart_events = true ->
  updateChart d data w h m =
  Ok ({| SvgAttrs.width := w + Margin.left m + Margin.right m;
         SvgAttrs.height := h + Margin.top m + Margin.bottom m;
         SvgAttrs.translate := (Margin.left m, Margin.top m) |},
      mapSeriesToData data, registered d).
Proof.
  rewrite declares_spec. intros Hd.
  assert (forall t, t ∈ chart_events -> exists es, d !! t = Some es) as Hdecl
    by (intros t Ht; apply Hd, Ht).
  destruct (Hdecl "legendClick") as [es1 H1]; [by apply chart_events_cases; tauto|].
  destruct (Hdecl "barClick") as [es2 H2]; [by apply chart_events_cases; tauto|].
  destruct (Hdecl "barMouseOver") as [es3 H3]; [by apply chart_events_cases; tauto|].
  destruct (Hdecl "barMouseOut") as [es4 H4]; [by apply chart_events_cases; tauto|].
  unfold updateChart, registered.
  rewrite !on_chart_event by (apply chart_events_cases; tauto).
  rewrite H1. simpl.
  rewrite !on_chart_event by (apply chart_events_cases; tauto).
  rewrite lookup_register, decide_False, H2 by done. simpl.
  rewrite !on_chart_event by (apply chart_events_cases; tauto).
  rewrite !lookup_register, !decide_False, H3 by done. simpl.
  rewrite !on_chart_event by (apply chart_events_cases; tauto).
  by rewrite !lookup_register, !decide_False, H4 by done.
Qed.

Lemma updateChart_undeclared (d : Dispatcher) data w h m :
  declares d chart_events = false ->
  exists e, updateChart d data w h m = Throw e.
Proof.
  intros Hd. unfold updateChart.
  rewrite !on_chart_event by (apply chart_events_cases; tauto).
  destruct (d !! "legendClick") as [es1|] eqn:H1; simpl; [|by eexists].
  rewrite !on_chart_event by (apply chart_events_cases; tauto).
  rewrite lookup_register, decide_False by done.
  destruct (d !! "barClick") as [es2|] eqn:H2; simpl; [|by eexists].
  rewrite !on_chart_event by (apply chart_events_cases; tauto).
  rewrite !lookup_register, !decide_False by done.
  destruct (d !! "barMouseOver") as [es3|] eqn:H3; simpl; [|by eexists].
  rewrite !on_chart_event by (apply chart_events_cases; tauto).
  rewrite !lookup_register, !decide_False by done.
  destruct (d !! "barMouseOut") as [es4|] eqn:H4; simpl; [|by eexists].
  exfalso. revert Hd. unfold declares, chart_events. simpl.
  rewrite H1, H2, H3, H4.
  by rewrite !bool_decide_true by by eexists.
Qed.

(** *** Series metadata *)

Lemma length_mapSeriesToData data :
  length (mapSeriesToData data) = length data.
Proof. apply length_imap. Qed.

Lemma mapSeriesToData_disabled data :
  ChartData.disabled <$> mapSeriesToData data = ChartData.disabled <$> data.
Proof.
  unfold mapSeriesToData. rewrite fmap_imap.
  rewrite <- (imap_const ChartData.disabled). by apply imap_ext.
Qed.

Lemma mapSeriesToData_key data :
  ChartData.key <$> mapSeriesToData data = ChartData.key <$> data.
Proof.
  unfold mapSeriesToData. rewrite fmap_imap.
  rewrite <- (imap_const ChartData.key). by apply imap_ext.
Qed.

Lemma tag_series_idemp i c : tag_series i (tag_series i c) = tag_series i c.
Proof.
  unfold tag_series. simpl. f_equal.
  rewrite <- list_fmap_compose. by apply list_fmap_ext.
Qed.

(** Attaching the metadata twice is attaching it once. *)
Lemma mapSeriesToData_idemp data :
  mapSeriesToData (mapSeriesToData data) = mapSeriesToData data.
Proof.
  unfold mapSeriesToData. apply list_eq. intros i.
  rewrite !list_lookup_imap.
  destruct (data !! i) as [c|]; simpl; [|done].
  by rewrite tag_series_idemp.
Qed.

(** The metadata goes to the points; the filter looks at the flag. *)
Lemma enabled_tag_series i c : enabled (tag_series i c) = enabled c.
Proof. done. Qed.

Lemma filter_enabled_disabled pre c post :
  ChartData.disabled c = Some true ->
  List.filter enabled (pre ++ c :: post) = List.filter enabled (pre ++ post).
Proof.
  intros Hc. rewrite !List.filter_app. simpl.
  unfold enabled at 2. by rewrite Hc.
Qed.

Lemma elem_of_filter_enabled c data :
  c ∈ List.filter enabled data <->
  c ∈ data /\ ChartData.disabled c ≠ Some true.
Proof.
  rewrite list_elem_of_In, List.filter_In, <- list_elem_of_In.
  unfold enabled, truthy.
  destruct (ChartData.disabled c) as [[]|]; simpl; split; intros [? ?];
    split; congruence.
Qed.

Lemma sublist_filter_enabled data : sublist (List.filter enabled data) data.
Proof.
  induction data as [|c data IH]; simpl; [constructor|].
  destruct (enabled c); by constructor.
Qed.

(** *** Width *)

Lemma measured_or_nonzero offsetWidth width :
  offsetWidth ≠ 0 -> measured_or (Some offsetWidth) width = offsetWidth.
Proof.
  intros Hw. unfold measured_or.
  by destruct (Z.eqb_spec offsetWidth 0).
Qed.

Lemma measured_or_zero width : measured_or (Some 0) width = width.
Proof. done. Qed.

Lemma measured_or_null width : measured_or None width = width.
Proof. done. Qed.

Lemma last_cons {A} (a d : A) (l : list A) :
  List.last (a :: l) d = List.last l a.
Proof.
  revert a d. induction l as [|b l IH]; intros a d; [done|].
  change (List.last (a :: b :: l) d) with (List.last (b :: l) d).
  by rewrite !IH.
Qed.

(** *** Render *)

(** Unfolds a [render] on a dispatcher that declares the chart events down
    to the record it returns. *)
Ltac render_unfold p s Hd :=
  unfold render;
  destruct (render_layout p s) as [w h m x y] eqn:?;
  rewrite (updateChart_declares _ _ _ _ _ Hd);
  simpl.

Lemma render_declares p s d :
  declares d chart_events = true ->
  exists r, render p s d = Ok r /\
    rendered_layout r = render_layout p s /\
    rendered_state r = set_data s (mapSeriesToData (State.data s)) /\
    rendered_dispatcher r = registered d /\
    rendered_svg r =
      let layout := render_layout p s in
      let m := ChartValues.m layout in
      {| SvgAttrs.width :=
           ChartValues.w layout + Margin.left m + Margin.right m;
         SvgAttrs.height :=
           ChartValues.h layout + Margin.top m + Margin.bottom m;
         SvgAttrs.translate := (Margin.left m, Margin.top m) |}.
Proof.
  intros Hd. render_unfold p s Hd. eexists. split; [done|]. by simpl.
Qed.

(** On a dispatcher that lacks one of the four types, [render] throws. *)
Lemma render_undeclared p s d :
  declares d chart_events = false -> exists e, render p s d = Throw e.
Proof.
  intros Hd. unfold render.
  destruct (render_layout p s) as [w h m x y].
  destruct (updateChart_undeclared d (State.data s) w h m Hd) as [e ->].
  by exists e.
Qed.

(** [render] returns exactly on the dispatchers that declare the four
    event types. *)
Lemma render_succeeds p s d :
  succeeds (render p s d) = declares d chart_events.
Proof.
  destruct (declares d chart_events) eqn:Hd.
  - by destruct (render_declares p s d Hd) as (r & -> & _).
  - by destruct (render_undeclared p s d Hd) as (e & ->).
Qed.

(** The children of a render, by emptiness of the state's data. *)
Lemma render_children p s d :
  declares d chart_events = true ->
  exists r, render p s d = Ok r /\
    rendered_state r = set_data s (mapSeriesToData (State.data s)) /\
    rendered_dispatcher r = registered d /\
    (State.data s = [] ->
       placeholders (rendered_children r) =
         [ {| NoData.width := State.width s;
              NoData.height := Props.height p;
              NoData.noDataMessage := Props.noDataMessage p |} ] /\
       wrappers (rendered_children r) = []) /\
    (State.data s ≠ [] ->
       placeholders (rendered_children r) = [] /\
       exists legend axis bars,
         mounted (rendered_children r) = [CWrapper legend axis bars]).
Proof.
  intros Hd. render_unfold p s Hd.
  eexists. split; [done|]. simpl.
  split; [done|]. split; [done|].
  rewrite length_mapSeriesToData.
  destruct (State.data s) as [|c data]; simpl.
  - split; [done|]. by intros [].
  - split; [done|]. intros _. split; [done|]. by eexists _, _, _.
Qed.

(** A second render changes neither the state nor the dispatcher. *)
Lemma render_again p p' s d r :
  valid_dispatcher d = true ->
  render p s d = Ok r ->
  exists r', render p' (rendered_state r) (rendered_dispatcher r) = Ok r' /\
    rendered_state r' = rendered_state r /\
    rendered_dispatcher r' = rendered_dispatcher r.
Proof.
  intros Hd Hr. pose proof (valid_dispatcher_declares d Hd) as Hdecl.
  destruct (render_declares p s d Hdecl) as (r0 & Hr0 & _ & Hs & Hdisp & _).
  rewrite Hr in Hr0. injection Hr0 as <-.
  destruct (render_declares p' (rendered_state r) (rendered_dispatcher r))
    as (r' & Hr' & _ & Hs' & Hdisp' & _).
  { rewrite Hdisp. by apply registered_declares. }
  exists r'. split; [done|]. split.
  - rewrite Hs', Hs. unfold set_data. simpl.
    by rewrite mapSeriesToData_idemp.
  - rewrite Hdisp', Hdisp. by apply registered_idemp.
Qed.

(** *** Callbacks *)

Lemma run_callback_width c payload (s : State) :
  State.width (run_callback c payload s) = State.width s.
Proof. by destruct c. Qed.

Lemma run_callback_color c payload (s : State) :
  State.color (run_callback c payload s) = State.color s.
Proof. by destruct c. Qed.

Lemma foldl_run_callback_frame cbs payload (s : State) :
  let s' := foldl (fun s c => run_callback c payload s) s cbs in
  State.width s' = State.width s /\ State.color s' = State.color s.
Proof.
  revert s. induction cbs as [|c cbs IH]; intros s; simpl; [done|].
  destruct (IH (run_callback c payload s)) as [Hw Hc].
  by rewrite Hw, Hc, run_callback_width, run_callback_color.
Qed.

Lemma foldl_run_callback_last cbs payload (s : State) :
  State.data
    (foldl (fun s c => run_callback c payload s) s (cbs ++ [SetStateData]))
  = payload.
Proof. by rewrite foldl_app. Qed.

Lemma call_declares (d : Dispatcher) t payload (s : State) :
  declares d chart_events = true -> t ∈ chart_events ->
  exists s', call d t payload s = Ok s' /\
    State.width s' = State.width s /\ State.color s' = State.color s.
Proof.
  intros Hd Ht. rewrite declares_spec in Hd.
  destruct (Hd t Ht) as (es & Hes).
  unfold call, callbacks. rewrite Hes. simpl.
  eexists. split; [done|]. apply foldl_run_callback_frame.
Qed.

(** *** Lifecycle *)

Lemma mount_declares p d barChart data :
  declares d chart_events = true ->
  Props.data p = Some data ->
  exists i, mount p d barChart = Ok i /\
    props i = p /\
    declares (dispatcher i) chart_events = true /\
    State.color (state i) =
      Computed (calculateColorScale (length data) (Props.useColorScale p)
                  (Props.colorScale p) (Props.colorSchemeCategory p)) /\
    State.width (state i) =
      if Props.fluid p then measured_or barChart (Props.width p)
      else Props.width p.
Proof.
  intros Hd Hdata.
  unfold mount, first_render, componentWillMount. rewrite Hdata. simpl.
  match goal with |- context [render p ?s d] =>
    destruct (render_declares p s d Hd) as (r1 & Hr1 & _ & Hs1 & Hd1 & _)
  end.
  rewrite Hr1. simpl. unfold componentDidMount.
  destruct (Props.fluid p) eqn:Hfluid.
  - match goal with |- context [render p ?s ?d'] =>
      destruct (render_declares p s d') as (r2 & Hr2 & _ & Hs2 & Hd2 & _)
    end.
    { rewrite Hd1. by apply registered_declares. }
    rewrite Hr2. simpl. eexists. split; [done|]. simpl.
    split; [done|]. split.
    { rewrite Hd2, Hd1. by do 2 apply registered_declares. }
    rewrite Hs2, Hs1. unfold updateDimensions. rewrite Hfluid. by simpl.
  - simpl. eexists. split; [done|]. simpl.
    split; [done|]. split.
    { rewrite Hd1. by apply registered_declares. }
    rewrite Hs1. unfold initial_state. rewrite Hfluid. by simpl.
Qed.

Lemma step_declares i e :
  declares (dispatcher i) chart_events = true ->
  valid_event e = true ->
  exists i', step i e = Ok i' /\
    declares (dispatcher i') chart_events = true /\
    props i' =
      match e with
      | ReceiveProps p | ReceiveEventDispatcher p _ => p
      | _ => props i
      end /\
    State.color (state i') = State.color (state i) /\
    State.width (state i') =
      match e with
      | Resize barChart =>
          State.width (updateDimensions (props i) barChart (state i))
      | _ => State.width (state i)
      end.
Proof.
  intros Hd He. unfold step.
  assert (exists p s disp, handle i e = Ok (p, s, disp) /\
            declares disp chart_events = true /\
            p = match e with
                | ReceiveProps p | ReceiveEventDispatcher p _ => p
                | _ => props i
                end /\
            State.color s = State.color (state i) /\
            State.width s =
              match e with
              | Resize barChart =>
                  State.width (updateDimensions (props i) barChart (state i))
              | _ => State.width (state i)
              end) as (p & s & disp & Hh & Hdisp & Hp & Hc & Hw).
  { destruct e as [barChart|p'|p' d'|t payload]; simpl.
    - eexists _, _, _. split; [done|]. split; [done|]. split; [done|].
      split; [|done].
      unfold updateDimensions. by destruct (Props.fluid (props i)).
    - by eexists _, _, _.
    - by eexists _, _, _.
    - simpl in He. apply bool_decide_eq_true in He.
      destruct (call_declares _ t payload (state i) Hd He)
        as (s' & -> & Hw & Hc).
      simpl. by eexists _, _, _. }
  rewrite Hh. simpl.
  destruct (render_declares p s _ Hdisp) as (r & -> & _ & Hs & Hd' & _).
  simpl. eexists. split; [done|]. simpl.
  split; [rewrite Hd'; by apply registered_declares|].
  split; [done|]. by rewrite Hs.
Qed.

(** Over any run of events the dispatcher keeps its types and the colour
    is the one the run started with. *)
Lemma run_declares i es :
  declares (dispatcher i) chart_events = true ->
  forallb valid_event es = true ->
  exists i', run i es = Ok i' /\
    declares (dispatcher i') chart_events = true /\
    State.color (state i') = State.color (state i).
Proof.
  revert i. induction es as [|e es IH]; intros i Hd Hes; simpl.
  - by exists i.
  - simpl in Hes. apply andb_true_iff in Hes as [He Hes].
    destruct (step_declares i e Hd He) as (i1 & -> & Hd1 & _ & Hc1 & _).
    simpl. destruct (IH i1 Hd1 Hes) as (i' & -> & Hd' & Hc').
    exists i'. split; [done|]. split; [done|]. by rewrite Hc', Hc1.
Qed.

Lemma run_resizes i p barChart measurements :
  declares (dispatcher i) chart_events = true ->
  props i = p ->
  State.width (state i) =
    (if Props.fluid p then measured_or barChart (Props.width p)
     else Props.width p) ->
  exists i', run i (Resize <$> measurements) = Ok i' /\
    State.width (state i') =
      if Props.fluid p
      then measured_or (List.last measurements barChart) (Props.width p)
      else Props.width p.
Proof.
  revert i barChart.
  induction measurements as [|b bs IH]; intros i barChart Hd Hp Hw.
  - by exists i.
  - rewrite last_cons. cbn [fmap list_fmap run].
    destruct (step_declares i (Resize b) Hd eq_refl)
      as (i1 & -> & Hd1 & Hp1 & _ & Hw1).
    simpl. destruct (IH i1 b Hd1) as (i' & Hi' & Hw').
    + by rewrite Hp1.
    + rewrite Hw1, Hp. unfold updateDimensions.
      destruct (Props.fluid p); [done|]. by rewrite Hw.
    + exists i'. by split.
Qed.

(** The dispatcher that the render after an event registers on. *)
Lemma handle_dispatcher i e p s disp :
  handle i e = Ok (p, s, disp) ->
  disp = match e with
         | ReceiveEventDispatcher _ eventDispatcher => eventDispatcher
         | _ => dispatcher i
         end.
Proof.
  destruct e as [barChart|p'|p' d'|t payload]; simpl; try by intros [= _ _ <-].
  destruct (call (dispatcher i) t payload (state i)); simpl; [|done].
  by intros [= _ _ <-].
Qed.

(** Every render that follows an event leaves the component's handlers
    under the bare event names of the dispatcher of the current props. *)
Lemma step_registers i e i' :
  valid_dispatcher
    match e with
    | ReceiveEventDispatcher _ eventDispatcher => eventDispatcher
    | _ => dispatcher i
    end = true ->
  step i e = Ok i' ->
  valid_dispatcher (dispatcher i') = true /\
  forall t, t ∈ chart_events ->
    on_get (dispatcher i') t = Ok (Some (handler_of t)).
Proof.
  intros Hd. unfold step.
  destruct (handle i e) as [[[p s] disp]|err] eqn:Hh; simpl; [|done].
  apply handle_dispatcher in Hh. rewrite <- Hh in Hd.
  destruct (render_declares p s disp)
    as (r & -> & _ & _ & Hdisp & _); [by apply valid_dispatcher_declares|].
  simpl. intros [= <-]. simpl. rewrite Hdisp.
  split; [by apply registered_valid|].
  intros t Ht. by apply on_get_registered.
Qed.

(** The empty array mounts, and both renders of the mount show the
    placeholder and no wrapper. *)
Lemma mount_empty_data p d barChart :
  declares d chart_events = true ->
  Props.data p = Some [] ->
  exists r1 r2 e1 e2, first_render p d = Ok r1 /\
    componentDidMount p barChart r1 = Ok r2 /\
    placeholders (rendered_children r1) = [e1] /\
    wrappers (rendered_children r1) = [] /\
    placeholders (rendered_children r2) = [e2] /\
    wrappers (rendered_children r2) = [].
Proof.
  intros Hd Hdata.
  unfold first_render, componentWillMount. rewrite Hdata. simpl.
  set (s := set_color _ _).
  assert (State.data s = []) as Hs by (subst s; simpl; by rewrite Hdata).
  destruct (render_children p s d Hd)
    as (r1 & Hr1 & Hs1 & Hd1 & Hempty & _).
  destruct (Hempty Hs) as [Hp1 Hw1].
  exists r1. unfold componentDidMount.
  destruct (Props.fluid p).
  - destruct (render_children p
                (updateDimensions p barChart (rendered_state r1))
                (rendered_dispatcher r1)) as (r2 & Hr2 & _ & _ & Hempty2 & _).
    { rewrite Hd1. by apply registered_declares. }
    destruct Hempty2 as [Hp2 Hw2].
    { rewrite Hs1, Hs. unfold updateDimensions.
      by destruct (Props.fluid p). }
    by eexists r2, _, _.
  - by eexists r1, _, _.
Qed.

(** ** The statements of the specification *)

(** C1 (as the component has it).  A render on a state whose data array is
    empty has the no-data placeholder among the svg children, with the
    state's displayed width (not the [width] prop), the [height] prop and
    the [noDataMessage] prop, and no wrapper: no legend, axis or bars.  A
    render on a non-empty data array mounts the wrapper with legend, axis
    and bars and no placeholder. *)
Theorem C1_render_by_emptiness p s d :
  declares d chart_events = true ->
  exists r, render p s d = Ok r /\
    (State.data s = [] ->
       placeholders (rendered_children r) =
         [ {| NoData.width := State.width s;
              NoData.height := Props.height p;
              NoData.noDataMessage := Props.noDataMessage p |} ] /\
       wrappers (rendered_children r) = []) /\
    (State.data s ≠ [] ->
       placeholders (rendered_children r) = [] /\
       exists legend axis bars,
         mounted (rendered_children r) = [CWrapper legend axis bars]).
Proof.
  intros Hd.
  destruct (render_children p s d Hd) as (r & Hr & _ & _ & Hchildren).
  by exists r.
Qed.

(** C2.  The layout of a render is [calculateChartValues] applied to the
    state's series without those whose [disabled] flag is set: the kept
    series are exactly the series of the state that are not disabled, in
    their order; the svg is sized from that layout; and two states of equal
    width that agree on the kept series get the same layout, so a disabled
    series adds nothing to it. *)
Theorem C2_layout_from_enabled_series p s d :
  declares d chart_events = true ->
  let kept := List.filter enabled (State.data s) in
  exists r, render p s d = Ok r /\
    rendered_layout r =
      calculateChartValues kept (State.width s) (Props.height p)
        (Props.margin p) (Props.xScaleType p) (Props.yScaleType p) /\
    (forall c, c ∈ kept <->
       c ∈ State.data s /\ ChartData.disabled c ≠ Some true) /\
    sublist kept (State.data s) /\
    SvgAttrs.width (rendered_svg r) =
      ChartValues.w (rendered_layout r)
      + Margin.left (ChartValues.m (rendered_layout r))
      + Margin.right (ChartValues.m (rendered_layout r)) /\
    SvgAttrs.height (rendered_svg r) =
      ChartValues.h (rendered_layout r)
      + Margin.top (ChartValues.m (rendered_layout r))
      + Margin.bottom (ChartValues.m (rendered_layout r)) /\
    (forall s' d',
       declares d' chart_events = true ->
       State.width s' = State.width s ->
       List.filter enabled (State.data s') = kept ->
       exists r', render p s' d' = Ok r' /\
         rendered_layout r' = rendered_layout r).
Proof.
  intros Hd kept. subst kept.
  destruct (render_declares p s d Hd) as (r & Hr & Hl & _ & _ & Hsvg).
  exists r.
  split; [done|]. split; [by rewrite Hl|].
  split; [intros c; apply elem_of_filter_enabled|].
  split; [apply sublist_filter_enabled|].
  split; [by rewrite Hsvg, Hl|]. split; [by rewrite Hsvg, Hl|].
  intros s' d' Hd' Hw Hkept.
  destruct (render_declares p s' d' Hd') as (r' & Hr' & Hl' & _).
  exists r'. split; [done|].
  rewrite Hl', Hl. unfold render_layout. by rewrite Hw, Hkept.
Qed.

(** C3 (as the component has it).  On a non-empty data array the bars child
    receives the state's whole array, in order and with every [disabled]
    flag as it is in the state, so disabled series included; what it
    receives without the disabled series is the layout: its scales and its
    height are those of [calculateChartValues] on the enabled series. *)
Theorem C3_bars_receive_every_series p s d :
  declares d chart_events = true ->
  State.data s ≠ [] ->
  exists r legend axis bars, render p s d = Ok r /\
    mounted (rendered_children r) = [CWrapper legend axis bars] /\
    Bars.data bars = mapSeriesToData (State.data s) /\
    ChartData.key <$> Bars.data bars = ChartData.key <$> State.data s /\
    ChartData.disabled <$> Bars.data bars =
      ChartData.disabled <$> State.data s /\
    let layout :=
      calculateChartValues (List.filter enabled (State.data s))
        (State.width s) (Props.height p) (Props.margin p)
        (Props.xScaleType p) (Props.yScaleType p) in
    Bars.x bars = ChartValues.x layout /\
    Bars.y bars = ChartValues.y layout /\
    Bars.height bars = ChartValues.h layout.
Proof.
  intros Hd Hdata. render_unfold p s Hd.
  match goal with H : render_layout p s = _ |- _ =>
    unfold render_layout in H; rewrite H
  end.
  rewrite length_mapSeriesToData.
  rewrite <- (mapSeriesToData_key (State.data s)).
  rewrite <- (mapSeriesToData_disabled (State.data s)).
  destruct (State.data s) as [|c data]; [done|].
  by eexists _, _, _, _.
Qed.

(** C4 (as the component has it).  The colour in the state is computed once,
    by [componentWillMount], from the length of the [data] prop and the
    colour props the chart is mounted with, and no later event changes it:
    after any run of resizes, prop changes and dispatched chart events it
    is still the mapping of the props of the mount. *)
Theorem C4_color_computed_at_mount p d barChart data es :
  declares d chart_events = true ->
  Props.data p = Some data ->
  forallb valid_event es = true ->
  exists i i', mount p d barChart = Ok i /\ run i es = Ok i' /\
    State.color (state i') =
      Computed (calculateColorScale (length data) (Props.useColorScale p)
                  (Props.colorScale p) (Props.colorSchemeCategory p)).
Proof.
  intros Hd Hdata Hes.
  destruct (mount_declares p d barChart data Hd Hdata)
    as (i & Hi & _ & Hdi & Hc & _).
  destruct (run_declares i es Hdi Hes) as (i' & Hi' & _ & Hc').
  exists i, i'. split; [done|]. split; [done|]. by rewrite Hc', Hc.
Qed.

(** C5 (as the component has it).  After the mount and any number of resize
    events: with [fluid] on, the displayed width is the [offsetWidth] the
    container had at the last measurement when the container is attached
    and that width is not 0, and the [width] prop otherwise; with [fluid]
    off, it is the [width] prop whatever the container measured. *)
Theorem C5_width_after_resizes p d barChart data measurements :
  declares d chart_events = true ->
  Props.data p = Some data ->
  exists i i', mount p d barChart = Ok i /\
    run i (Resize <$> measurements) = Ok i' /\
    State.width (state i') =
      if Props.fluid p
      then match List.last measurements barChart with
           | Some offsetWidth =>
               if (offsetWidth =? 0)%Z then Props.width p else offsetWidth
           | None => Props.width p
           end
      else Props.width p.
Proof.
  intros Hd Hdata.
  destruct (mount_declares p d barChart data Hd Hdata)
    as (i & Hi & Hp & Hdi & _ & Hw).
  destruct (run_resizes i p barChart measurements Hdi Hp Hw) as (i' & Hi' & Hw').
  by exists i, i'.
Qed.

(** C6.  After a render, the handler found under [legendClick] replaces the
    displayed data: run on a payload it leaves a state whose data is the
    payload, and so does a [call] of the event on the dispatcher, where the
    callbacks the host registered under qualified names run as well. *)
Theorem C6_legendClick_replaces_data p s d payload (s0 : State) :
  valid_dispatcher d = true ->
  exists r handler s1, render p s d = Ok r /\
    on_get (rendered_dispatcher r) "legendClick" = Ok (Some handler) /\
    State.data (run_callback handler payload s0) = payload /\
    call (rendered_dispatcher r) "legendClick" payload s0 = Ok s1 /\
    State.data s1 = payload.
Proof.
  intros Hd. pose proof (valid_dispatcher_declares d Hd) as Hdecl.
  destruct (render_declares p s d Hdecl) as (r & Hr & _ & _ & Hdisp & _).
  assert ("legendClick" ∈ chart_events) as Hin
    by (apply chart_events_cases; tauto).
  pose proof Hd as Hd0. rewrite valid_dispatcher_spec in Hd0.
  destruct (Hd0 _ Hin) as (es & Hes & _).
  exists r, SetStateData. eexists.
  split; [done|]. rewrite Hdisp.
  split; [by apply (on_get_registered d "legendClick")|].
  split; [done|].
  unfold call, callbacks.
  rewrite lookup_registered, bool_decide_true, Hes by done. simpl.
  split; [done|].
  change (handler_of "legendClick") with SetStateData.
  destruct (set_snd_last "" SetStateData es) as [cbs ->].
  apply foldl_run_callback_last.
Qed.

(** C8.  After a render, the handlers found under [barClick],
    [barMouseOver] and [barMouseOut] leave the whole state (data, width,
    color) as it was. *)
Theorem C8_bar_handlers_keep_state p s d type payload (s0 : State) :
  valid_dispatcher d = true ->
  type ∈ ["barClick"; "barMouseOver"; "barMouseOut"] ->
  exists r handler, render p s d = Ok r /\
    on_get (rendered_dispatcher r) type = Ok (Some handler) /\
    run_callback handler payload s0 = s0.
Proof.
  intros Hd Ht. pose proof (valid_dispatcher_declares d Hd) as Hdecl.
  destruct (render_declares p s d Hdecl) as (r & Hr & _ & _ & Hdisp & _).
  exists r, NoOp. split; [done|]. split; [|done].
  rewrite !elem_of_cons, elem_of_nil in Ht.
  rewrite Hdisp, on_get_registered; [|done|apply chart_events_cases; tauto].
  by destruct Ht as [-> | [-> | [-> | []]]].
Qed.

(** C9.  Whatever the dispatcher held before, after a render the entry
    under [legendClick] is the state-replacing handler and the entries
    under [barClick], [barMouseOver] and [barMouseOut] are the empty
    handler; the dispatcher is valid again, so the same holds after the
    next render. *)
Theorem C9_render_registers_handlers p s d :
  valid_dispatcher d = true ->
  exists r, render p s d = Ok r /\
    on_get (rendered_dispatcher r) "legendClick" = Ok (Some SetStateData) /\
    on_get (rendered_dispatcher r) "barClick" = Ok (Some NoOp) /\
    on_get (rendered_dispatcher r) "barMouseOver" = Ok (Some NoOp) /\
    on_get (rendered_dispatcher r) "barMouseOut" = Ok (Some NoOp) /\
    valid_dispatcher (rendered_dispatcher r) = true.
Proof.
  intros Hd. pose proof (valid_dispatcher_declares d Hd) as Hdecl.
  destruct (render_declares p s d Hdecl) as (r & Hr & _ & _ & Hdisp & _).
  exists r. split; [done|]. rewrite Hdisp.
  repeat split;
    try (rewrite on_get_registered;
         [done|done|apply chart_events_cases; tauto]).
  by apply registered_valid.
Qed.

(** C10 (as the component has it).  With [fluid] on, the state starts with
    width 0 and the first render computes its layout with width 0, not with
    the [width] prop; in [componentDidMount], after that render, the width
    becomes the [offsetWidth] of the container when the container is
    attached and that width is not 0, and the [width] prop otherwise. *)
Theorem C10_fluid_first_layout_has_width_0 p d barChart data :
  declares d chart_events = true ->
  Props.fluid p = true ->
  Props.data p = Some data ->
  State.width (initial_state p) = 0 /\
  exists r1 r2, first_render p d = Ok r1 /\
    rendered_layout r1 =
      calculateChartValues (List.filter enabled data) 0 (Props.height p)
        (Props.margin p) (Props.xScaleType p) (Props.yScaleType p) /\
    State.width (rendered_state r1) = 0 /\
    componentDidMount p barChart r1 = Ok r2 /\
    State.width (rendered_state r2) =
      match barChart with
      | Some offsetWidth =>
          if (offsetWidth =? 0)%Z then Props.width p else offsetWidth
      | None => Props.width p
      end.
Proof.
  intros Hd Hfluid Hdata.
  split; [unfold initial_state; by rewrite Hfluid|].
  unfold first_render, componentWillMount. rewrite Hdata. simpl.
  match goal with |- context [render p ?s d] =>
    destruct (render_declares p s d Hd) as (r1 & Hr1 & Hl1 & Hs1 & Hd1 & _)
  end.
  destruct (render_declares p (updateDimensions p barChart (rendered_state r1))
              (rendered_dispatcher r1)) as (r2 & Hr2 & _ & Hs2 & _).
  { rewrite Hd1. by apply registered_declares. }
  exists r1, r2. split; [done|]. split.
  { rewrite Hl1. unfold render_layout, initial_state.
    rewrite Hdata, Hfluid. by simpl. }
  split.
  { rewrite Hs1. unfold initial_state. rewrite Hfluid. by simpl. }
  split; [unfold componentDidMount; by rewrite Hfluid|].
  rewrite Hs2. unfold updateDimensions. rewrite Hfluid. by simpl.
Qed.

(** C7 (what the component does on the absent data prop).  The state
    initialiser turns a missing [data] prop into the empty array, but
    [componentWillMount] reads [data.length] from the prop itself: the
    mount throws before the first render, on every dispatcher. *)
Theorem C7_absent_data_throws p d barChart :
  Props.data p = None ->
  State.data (initial_state p) = [] /\
  mount p d barChart =
    Throw (TypeError "Cannot read property 'length' of undefined").
Proof.
  intros Hdata. split.
  - unfold initial_state. by rewrite Hdata.
  - unfold mount, first_render, componentWillMount. by rewrite Hdata.
Qed.

(** ** Further properties of the component *)

Lemma first_undeclared_None (d : Dispatcher) :
  first_undeclared d = None <-> declares d chart_events = true.
Proof.
  unfold first_undeclared, declares, chart_events. simpl.
  repeat (destruct (bool_decide _); simpl); split; congruence.
Qed.

Lemma updateChart_first_undeclared (d : Dispatcher) data w h m t :
  first_undeclared d = Some t ->
  updateChart d data w h m = Throw (Error ("unknown type: " ++ t)).
Proof.
  unfold first_undeclared, chart_events, updateChart. simpl.
  rewrite !on_chart_event by (apply chart_events_cases; tauto).
  destruct (d !! "legendClick") as [es1|] eqn:H1; simpl.
  2: { by intros [= <-]. }
  rewrite !on_chart_event by (apply chart_events_cases; tauto).
  rewrite lookup_register, decide_False by done.
  destruct (d !! "barClick") as [es2|] eqn:H2; simpl.
  2: { by intros [= <-]. }
  rewrite !on_chart_event by (apply chart_events_cases; tauto).
  rewrite !lookup_register, !decide_False by done.
  destruct (d !! "barMouseOver") as [es3|] eqn:H3; simpl.
  2: { by intros [= <-]. }
  rewrite !on_chart_event by (apply chart_events_cases; tauto).
  rewrite !lookup_register, !decide_False by done.
  destruct (d !! "barMouseOut") as [es4|] eqn:H4; simpl.
  2: { by intros [= <-]. }
  done.
Qed.

(** X1.  [render] returns on exactly the dispatchers that were made with
    the four chart events; on any other it throws d3-dispatch's "unknown
    type" error for the first of legendClick, barClick, barMouseOver,
    barMouseOut that is missing, whatever the props and the state. *)
Theorem X1_render_throws_on_first_undeclared p s d :
  match first_undeclared d with
  | None => exists r, render p s d = Ok r
  | Some t => render p s d = Throw (Error ("unknown type: " ++ t))
  end.
Proof.
  destruct (first_undeclared d) as [t|] eqn:Ht.
  - unfold render. destruct (render_layout p s) as [w h m x y].
    by rewrite (updateChart_first_undeclared d _ w h m t Ht).
  - apply first_undeclared_None in Ht.
    destruct (render_declares p s d Ht) as (r & Hr & _). by exists r.
Qed.

(** X2.  Mounting returns exactly when the [data] prop is there and the
    dispatcher was made with the four chart events; the measurement of the
    container, the other props and the callbacks on the dispatcher play no
    part in it. *)
Theorem X2_mount_returns_iff p d barChart :
  succeeds (mount p d barChart) =
  match Props.data p with
  | Some _ => declares d chart_events
  | None => false
  end.
Proof.
  destruct (Props.data p) as [data|] eqn:Hdata.
  - destruct (declares d chart_events) eqn:Hd.
    + by destruct (mount_declares p d barChart data Hd Hdata) as (i & -> & _).
    + unfold mount, first_render, componentWillMount. rewrite Hdata. simpl.
      match goal with |- context [render p ?s d] =>
        destruct (render_undeclared p s d Hd) as (e & ->)
      end.
      done.
  - unfold mount, first_render, componentWillMount. by rewrite Hdata.
Qed.

(** X3.  Rendering is idempotent on what it mutates: a second render, with
    the same or with other props, returns and leaves the state (the data
    with its metadata) and the dispatcher exactly as the first left
    them. *)
Theorem X3_second_render_changes_nothing p p' s d :
  valid_dispatcher d = true ->
  exists r r', render p s d = Ok r /\
    render p' (rendered_state r) (rendered_dispatcher r) = Ok r' /\
    rendered_state r' = rendered_state r /\
    rendered_dispatcher r' = rendered_dispatcher r.
Proof.
  intros Hd.
  destruct (render_declares p s d (valid_dispatcher_declares d Hd))
    as (r & Hr & _).
  destruct (render_again p p' s d r Hd Hr) as (r' & Hr' & Hs & Hdisp).
  by exists r, r'.
Qed.

(** X4.  A render touches the dispatcher under the four bare event names
    only: what the host registered under a qualified name, as
    [legendClick.log], is read back unchanged after the render, and so is
    every array of a type that is not a chart event. *)
Theorem X4_render_keeps_qualified_callbacks p s d :
  declares d chart_events = true ->
  exists r, render p s d = Ok r /\
    (forall typename, (parseTypename typename).2 ≠ "" ->
       on_get (rendered_dispatcher r) typename = on_get d typename) /\
    (forall type, type ∉ chart_events ->
       rendered_dispatcher r !! type = d !! type).
Proof.
  intros Hd.
  destruct (render_declares p s d Hd) as (r & Hr & _ & _ & Hdisp & _).
  exists r. split; [done|]. rewrite Hdisp. split.
  - intros typename Hname. by apply on_get_registered_named.
  - intros type Htype. by rewrite lookup_registered, bool_decide_false.
Qed.

(** X5.  The three children of the wrapper are handed one geometry: the
    axis and the bars get the same two scales and the same plot height,
    the legend and the axis the same margin and the same width, all three
    the same data array, and the legend and the bars the same colour
    function. *)
Theorem X5_children_share_geometry p s d :
  declares d chart_events = true ->
  State.data s ≠ [] ->
  exists r legend axis bars, render p s d = Ok r /\
    wrappers (rendered_children r) = [(legend, axis, bars)] /\
    Axis.x axis = Bars.x bars /\
    Axis.y axis = Bars.y bars /\
    Axis.height axis = Bars.height bars /\
    Legend.margin legend = Axis.margin axis /\
    Legend.width legend = Axis.width axis /\
    Legend.data legend = Axis.data axis /\
    Axis.data axis = Bars.data bars /\
    Legend.color legend = Bars.color bars.
Proof.
  intros Hd Hdata. render_unfold p s Hd.
  rewrite length_mapSeriesToData.
  destruct (State.data s) as [|c data]; [done|].
  by eexists _, _, _, _.
Qed.

(** X6.  The dispatcher of [defaultProps] declares every event that
    [updateChart] registers on: a chart that is given a data array and no
    dispatcher of its own mounts, whatever its other props. *)
Theorem X6_default_dispatcher_mounts p barChart data :
  Props.data p = Some data ->
  exists i, mount p defaultDispatcher barChart = Ok i /\
    props i = p /\
    dispatcher i = registered defaultDispatcher.
Proof.
  intros Hdata.
  assert (valid_dispatcher defaultDispatcher = true) as Hd by done.
  pose proof (valid_dispatcher_declares _ Hd) as Hdecl.
  unfold mount, first_render, componentWillMount. rewrite Hdata. simpl.
  match goal with |- context [render p ?s _] =>
    destruct (render_declares p s _ Hdecl) as (r1 & -> & _ & _ & Hd1 & _)
  end.
  simpl. unfold componentDidMount. destruct (Props.fluid p).
  - match goal with |- context [render p ?s ?d'] =>
      destruct (render_declares p s d') as (r2 & -> & _ & _ & Hd2 & _)
    end.
    { rewrite Hd1. by apply registered_declares. }
    simpl. eexists. split; [done|]. split; [done|]. simpl.
    by rewrite Hd2, Hd1, registered_idemp.
  - simpl. by eexists.
Qed.

(** *** A mounted chart and its events *)

Lemma set_data_id (s : State) : set_data s (State.data s) = s.
Proof. by destruct s. Qed.

(** Once the metadata is on the data and the handlers are on the
    dispatcher, a render returns both as they are. *)
Lemma render_settled p s d :
  valid_dispatcher d = true ->
  mapSeriesToData (State.data s) = State.data s ->
  exists r, render p s (registered d) = Ok r /\
    rendered_state r = s /\ rendered_dispatcher r = registered d.
Proof.
  intros Hd Hs.
  destruct (render_declares p s (registered d))
    as (r & Hr & _ & Hrs & Hrd & _).
  { by apply registered_declares, valid_dispatcher_declares. }
  exists r. split; [done|]. split.
  - by rewrite Hrs, Hs, set_data_id.
  - by rewrite Hrd, registered_idemp.
Qed.

(** The instance that a mount returns. *)
Lemma mount_settled p d barChart data :
  valid_dispatcher d = true ->
  Props.data p = Some data ->
  mount p d barChart =
  Ok (mkInstance p
        {| State.data := mapSeriesToData data;
           State.width :=
             if Props.fluid p then measured_or barChart (Props.width p)
             else Props.width p;
           State.color :=
             Computed
               (calculateColorScale (length data) (Props.useColorScale p)
                  (Props.colorScale p) (Props.colorSchemeCategory p)) |}
        (registered d)).
Proof.
  intros Hd Hdata.
  unfold mount, first_render, componentWillMount. rewrite Hdata. simpl.
  match goal with |- context [render p ?s d] =>
    destruct (render_declares p s d (valid_dispatcher_declares d Hd))
      as (r1 & -> & _ & Hs1 & Hd1 & _)
  end.
  simpl in *. rewrite Hdata in Hs1. unfold set_data in Hs1. simpl in Hs1.
  unfold componentDidMount. destruct (Props.fluid p) eqn:Hfluid.
  - rewrite Hs1, Hd1. unfold updateDimensions. rewrite Hfluid.
    unfold set_width. simpl.
    match goal with |- context [render p ?s _] =>
      destruct (render_settled p s d Hd) as (r2 & -> & Hs2 & Hd2)
    end.
    + simpl. by rewrite mapSeriesToData_idemp.
    + simpl. by rewrite Hs2, Hd2.
  - simpl. by rewrite Hs1, Hd1.
Qed.

Lemma host_only_spec (d : Dispatcher) :
  host_only d = true <->
  forall t es, t ∈ chart_events -> d !! t = Some es ->
    forallb is_host es.*2 = true.
Proof.
  unfold host_only. rewrite forallb_forall. split.
  - intros H t es Ht Hes. apply list_elem_of_In, H in Ht.
    by rewrite Hes in Ht.
  - intros H t Ht. apply list_elem_of_In in Ht.
    destruct (d !! t) as [es|] eqn:Hes; [|done]. by apply (H t).
Qed.

Lemma remove_named_host name (es : list (string * Callback)) :
  forallb is_host es.*2 = true ->
  forallb is_host (remove_named name es).*2 = true.
Proof.
  induction es as [|[n c] es IH]; simpl; [done|].
  rewrite andb_true_iff. intros [Hc Hes].
  case_decide; [done|]. simpl. rewrite Hc. by apply IH.
Qed.

Lemma foldl_run_callback_host cbs payload (s : State) :
  forallb is_host cbs = true ->
  foldl (fun s c => run_callback c payload s) s cbs = s.
Proof.
  induction cbs as [|c cbs IH]; simpl; [done|].
  rewrite andb_true_iff. intros [Hc Hcbs].
  destruct c; try done. by apply IH.
Qed.

(** A [call] on the dispatcher of a rendered chart comes down to the
    chart's own handler of the event. *)
Lemma call_registered (d : Dispatcher) t payload (s : State) :
  valid_dispatcher d = true -> host_only d = true -> t ∈ chart_events ->
  call (registered d) t payload s = Ok (run_callback (handler_of t) payload s).
Proof.
  intros Hd Hhost Ht.
  rewrite valid_dispatcher_spec in Hd. rewrite host_only_spec in Hhost.
  destruct (Hd t Ht) as (es & Hes & _).
  unfold call, callbacks.
  rewrite lookup_registered, bool_decide_true, Hes by done. simpl.
  unfold set. rewrite fmap_app, foldl_app. simpl.
  by rewrite foldl_run_callback_host
    by (apply remove_named_host; by apply (Hhost t)).
Qed.

Lemma arrows_in_place_spec (d : Dispatcher) :
  arrows_in_place d = true <->
  forall t es, t ∈ chart_events -> d !! t = Some es ->
    forallb (arrow_in_place t) es = true.
Proof.
  unfold arrows_in_place. rewrite forallb_forall. split.
  - intros H t es Ht Hes. apply list_elem_of_In, H in Ht.
    by rewrite Hes in Ht.
  - intros H t Ht. apply list_elem_of_In in Ht.
    destruct (d !! t) as [es|] eqn:Hes; [|done]. by apply (H t).
Qed.

Lemma remove_named_in_place t name (es : list (string * Callback)) :
  forallb (arrow_in_place t) es = true ->
  forallb (arrow_in_place t) (remove_named name es) = true.
Proof.
  induction es as [|[n c] es IH]; simpl; [done|].
  rewrite andb_true_iff. intros [Hc Hes].
  case_decide; [done|]. simpl. rewrite Hc. by apply IH.
Qed.

(** A render keeps the arrows in their place. *)
Lemma registered_arrows_in_place (d : Dispatcher) :
  arrows_in_place d = true -> arrows_in_place (registered d) = true.
Proof.
  rewrite !arrows_in_place_spec. intros Hd t es Ht.
  rewrite lookup_registered, bool_decide_true by done.
  destruct (d !! t) as [es0|] eqn:Hes0; simpl; [|done].
  intros [= <-]. unfold set. rewrite forallb_app.
  rewrite remove_named_in_place by by apply (Hd t).
  simpl. unfold arrow_in_place, handler_of. simpl.
  case_decide; [|done]. subst. by rewrite bool_decide_true.
Qed.

(** What a host hands over has the arrows in their place: it has none. *)
Lemma host_only_arrows_in_place (d : Dispatcher) :
  host_only d = true -> arrows_in_place d = true.
Proof.
  rewrite host_only_spec, arrows_in_place_spec. intros Hd t es Ht Hes.
  specialize (Hd t es Ht Hes). clear Hes.
  induction es as [|[n c] es IH]; simpl in *; [done|].
  apply andb_true_iff in Hd as [Hc Hd].
  rewrite IH by done. by destruct c.
Qed.

Lemma foldl_run_callback_no_setter t (es : list (string * Callback))
    payload (s : State) :
  t ≠ "legendClick" ->
  forallb (arrow_in_place t) es = true ->
  foldl (fun s c => run_callback c payload s) s es.*2 = s.
Proof.
  intros Ht. induction es as [|[n c] es IH]; simpl; [done|].
  rewrite andb_true_iff. intros [Hc Hes].
  destruct c; simpl; try by apply IH.
  unfold arrow_in_place in Hc. simpl in Hc.
  apply bool_decide_eq_true in Hc as [? _]. done.
Qed.

Lemma foldl_run_callback_then_set cbs payload (s : State) :
  foldl (fun s c => run_callback c payload s) s (cbs ++ [SetStateData])
  = set_data s payload.
Proof.
  rewrite foldl_app. simpl.
  destruct (foldl_run_callback_frame cbs payload s) as [Hw Hc].
  unfold set_data. by rewrite Hw, Hc.
Qed.

(** A [call] on the dispatcher of a rendered chart comes down to the
    chart's own handler of the event, also when other charts have
    registered on the dispatcher before. *)
Lemma call_in_place (d : Dispatcher) t payload (s : State) :
  valid_dispatcher d = true -> arrows_in_place d = true ->
  t ∈ chart_events ->
  call (registered d) t payload s = Ok (run_callback (handler_of t) payload s).
Proof.
  intros Hd Harrows Ht.
  rewrite valid_dispatcher_spec in Hd.
  rewrite arrows_in_place_spec in Harrows.
  destruct (Hd t Ht) as (es & Hes & _).
  unfold call, callbacks.
  rewrite lookup_registered, bool_decide_true, Hes by done. simpl.
  unfold set. rewrite fmap_app. simpl.
  unfold handler_of. case_decide as Hlegend.
  - by rewrite foldl_run_callback_then_set.
  - rewrite foldl_app. simpl.
    by rewrite (foldl_run_callback_no_setter t)
      by (done || by apply remove_named_in_place, (Harrows t)).
Qed.

(** One event on a chart whose dispatcher holds the chart's handlers and
    whose data carries the metadata. *)
Lemma step_settled i e d data :
  valid_dispatcher d = true -> arrows_in_place d = true ->
  settled_event e = true ->
  dispatcher i = registered d ->
  State.data (state i) = mapSeriesToData data ->
  exists i', step i e = Ok i' /\
    dispatcher i' = registered (dispatcher_after e d) /\
    State.data (state i') = mapSeriesToData (displayed_after e data) /\
    valid_dispatcher (dispatcher_after e d) = true /\
    arrows_in_place (dispatcher_after e d) = true.
Proof.
  intros Hd Harrows He Hdisp Hdata. unfold step.
  destruct e as [barChart|p'|p' d'|t payload]; simpl.
  - rewrite Hdisp.
    destruct (render_settled (props i)
                (updateDimensions (props i) barChart (state i)) d Hd)
      as (r & -> & Hrs & Hrd).
    { unfold updateDimensions. destruct (Props.fluid (props i)); simpl;
        by rewrite Hdata, mapSeriesToData_idemp. }
    simpl. eexists. split; [done|]. simpl. split; [done|]. rewrite Hrs.
    split; [|done].
    unfold updateDimensions. by destruct (Props.fluid (props i)).
  - rewrite Hdisp.
    destruct (render_settled p' (state i) d Hd) as (r & -> & Hrs & Hrd).
    { by rewrite Hdata, mapSeriesToData_idemp. }
    simpl. eexists. split; [done|]. simpl. split; [done|]. by rewrite Hrs.
  - simpl in He. apply andb_true_iff in He as [Hd' Harrows'].
    destruct (render_declares p' (state i) d'
                (valid_dispatcher_declares d' Hd'))
      as (r & -> & _ & Hrs & Hrd & _).
    simpl. eexists. split; [done|]. simpl. split; [done|].
    rewrite Hrs. simpl. by rewrite Hdata, mapSeriesToData_idemp.
  - simpl in He. apply bool_decide_eq_true in He.
    rewrite Hdisp, call_in_place by done. simpl.
    destruct (render_declares (props i)
                (run_callback (handler_of t) payload (state i)) (registered d))
      as (r & -> & _ & Hrs & Hrd & _).
    { by apply registered_declares, valid_dispatcher_declares. }
    simpl. eexists. split; [done|]. simpl.
    split; [rewrite Hrd; by apply registered_idemp|]. rewrite Hrs.
    split; [|done].
    unfold handler_of. case_decide; simpl; [done|].
    by rewrite Hdata, mapSeriesToData_idemp.
Qed.

(** X7.  A mounted chart takes nothing from later props into its state.
    When the host passes new props with the dispatcher it passed before,
    a new [data] array or a new [width] included, the state and the
    dispatcher are exactly what they were.  When the new props carry
    another dispatcher, the state is exactly what it was and the render
    registers the chart's four handlers on the new dispatcher, which is
    the chart's dispatcher from then on; if the new dispatcher lacks one
    of the four event types, that render throws. *)
Theorem X7_new_props_leave_the_state p d barChart data :
  valid_dispatcher d = true ->
  Props.data p = Some data ->
  exists i, mount p d barChart = Ok i /\
    (forall p',
       step i (ReceiveProps p') = Ok (mkInstance p' (state i) (dispatcher i))) /\
    (forall p' d', declares d' chart_events = true ->
       step i (ReceiveEventDispatcher p' d')
         = Ok (mkInstance p' (state i) (registered d'))) /\
    (forall p' d', declares d' chart_events = false ->
       exists e, step i (ReceiveEventDispatcher p' d') = Throw e).
Proof.
  intros Hd Hdata. rewrite (mount_settled p d barChart data Hd Hdata).
  eexists. split; [done|]. unfold step. simpl. split; [|split].
  - intros p'.
    match goal with |- context [render p' ?s _] =>
      destruct (render_settled p' s d Hd) as (r & -> & Hrs & Hrd)
    end.
    + simpl. by rewrite mapSeriesToData_idemp.
    + simpl. by rewrite Hrs, Hrd.
  - intros p' d' Hd'.
    match goal with |- context [render p' ?s d'] =>
      destruct (render_declares p' s d' Hd') as (r & -> & _ & Hrs & Hrd & _)
    end.
    simpl. rewrite Hrs, Hrd. unfold set_data. simpl.
    by rewrite mapSeriesToData_idemp.
  - intros p' d' Hd'.
    match goal with |- context [render p' ?s d'] =>
      destruct (render_undeclared p' s d' Hd') as (e & ->)
    end.
    by exists e.
Qed.

(** X8.  On a mounted chart a [barClick], [barMouseOver] or [barMouseOut]
    event, with any payload, changes nothing at all: props, state and
    dispatcher are the same after the event and the render that follows
    it. *)
Theorem X8_bar_events_change_nothing p d barChart data type payload :
  valid_dispatcher d = true ->
  host_only d = true ->
  Props.data p = Some data ->
  type ∈ ["barClick"; "barMouseOver"; "barMouseOut"] ->
  exists i, mount p d barChart = Ok i /\
    step i (Dispatch type payload) = Ok i.
Proof.
  intros Hd Hhost Hdata Ht.
  rewrite (mount_settled p d barChart data Hd Hdata).
  eexists. split; [done|]. unfold step. simpl.
  rewrite !elem_of_cons, elem_of_nil in Ht.
  rewrite call_registered by (done || apply chart_events_cases; tauto).
  replace (handler_of type) with NoOp
    by (by destruct Ht as [-> | [-> | [-> | []]]]).
  simpl.
  match goal with |- context [render p ?s _] =>
    destruct (render_settled p s d Hd) as (r & -> & Hrs & Hrd)
  end.
  - simpl. by rewrite mapSeriesToData_idemp.
  - simpl. by rewrite Hrs, Hrd.
Qed.

Lemma run_settled i es d data :
  valid_dispatcher d = true -> arrows_in_place d = true ->
  forallb settled_event es = true ->
  dispatcher i = registered d ->
  State.data (state i) = mapSeriesToData data ->
  exists i', run i es = Ok i' /\
    dispatcher i' = registered (current_dispatcher es d) /\
    State.data (state i') = mapSeriesToData (displayed es data).
Proof.
  revert i d data.
  induction es as [|e es IH]; intros i d data Hd Harrows Hes Hdisp Hdata;
    simpl.
  - by exists i.
  - simpl in Hes. apply andb_true_iff in Hes as [He Hes].
    destruct (step_settled i e d data Hd Harrows He Hdisp Hdata)
      as (i1 & -> & Hdisp1 & Hdata1 & Hd1 & Harrows1).
    simpl. apply (IH i1 _ _ Hd1 Harrows1 Hes Hdisp1 Hdata1).
Qed.

(** X9.  Take a mounted chart and a run of resizes, new props (with the
    same or with another dispatcher) and chart events called on the
    chart's dispatcher, where every dispatcher the chart is given has
    unique names and holds the state-replacing arrow under the bare
    [legendClick] or not at all (so it is with host callbacks alone, and so
    it stays when charts render); renders of other charts on the same
    dispatcher are not among the events of the run.  After the run, the
    data on display is the payload of the last [legendClick], or the
    [data] prop of the mount if there was none, with the series metadata
    attached; and the chart's dispatcher is the one of the latest props,
    with the chart's four handlers registered on it. *)
Theorem X9_data_is_the_last_legend_payload p d barChart data es :
  valid_dispatcher d = true ->
  arrows_in_place d = true ->
  Props.data p = Some data ->
  forallb settled_event es = true ->
  exists i i', mount p d barChart = Ok i /\ run i es = Ok i' /\
    State.data (state i') = mapSeriesToData (displayed es data) /\
    dispatcher i' = registered (current_dispatcher es d).
Proof.
  intros Hd Harrows Hdata Hes.
  pose proof (mount_settled p d barChart data Hd Hdata) as Hm.
  match type of Hm with _ = Ok ?i =>
    destruct (run_settled i es d data Hd Harrows Hes eq_refl eq_refl)
      as (i' & Hi' & Hd' & Hs');
    exists i, i'
  end.
  done.
Qed.

(** *** Several charts on one dispatcher *)

Lemma shared_remove_named_subseteq name (es : list (string * Shared.Closure)) :
  Shared.remove_named name es ⊆ es.
Proof.
  induction es as [|[n c] es IH]; simpl; [done|].
  case_decide; simpl.
  - intros e He. by apply elem_of_cons; right.
  - intros e. rewrite !elem_of_cons. intros [->|He]; auto.
Qed.

Lemma shared_remove_named_NoDup name (es : list (string * Shared.Closure)) :
  NoDup es.*1 -> NoDup (Shared.remove_named name es).*1.
Proof.
  induction es as [|[n c] es IH]; simpl; [done|].
  rewrite NoDup_cons. intros [Hn Hes].
  case_decide; [done|].
  simpl. apply NoDup_cons. split; [|auto].
  intros Hin. apply Hn.
  apply list_elem_of_fmap in Hin as ([n' c'] & -> & Hin).
  apply list_elem_of_fmap. exists (n', c'). split; [done|].
  by apply (shared_remove_named_subseteq name).
Qed.

Lemma shared_remove_named_absent name (es : list (string * Shared.Closure)) :
  NoDup es.*1 -> name ∉ (Shared.remove_named name es).*1.
Proof.
  induction es as [|[n c] es IH]; simpl.
  - intros _. apply not_elem_of_nil.
  - rewrite NoDup_cons. intros [Hn Hes].
    case_decide; subst; [done|].
    simpl. rewrite not_elem_of_cons. auto.
Qed.

Lemma shared_set_NoDup name c (es : list (string * Shared.Closure)) :
  NoDup es.*1 -> NoDup (Shared.set es name (Some c)).*1.
Proof.
  intros Hes. unfold Shared.set. rewrite fmap_app. simpl.
  apply NoDup_app. split; [by apply shared_remove_named_NoDup|].
  split; [|apply NoDup_singleton].
  intros n Hn. rewrite list_elem_of_singleton. intros Heq. subst.
  by eapply shared_remove_named_absent.
Qed.

(** The registry of closures is the registry of callbacks once the charts
    are forgotten. *)
Lemma erase_remove_named name (es : list (string * Shared.Closure)) :
  Shared.erase_entry <$> Shared.remove_named name es =
  remove_named name (Shared.erase_entry <$> es).
Proof.
  induction es as [|[n c] es IH]; [done|].
  rewrite fmap_cons. simpl.
  case_decide; [done|]. rewrite fmap_cons. by f_equal.
Qed.

Lemma erase_set name c (es : list (string * Shared.Closure)) :
  Shared.erase_entry <$> Shared.set es name (Some c) =
  set (Shared.erase_entry <$> es) name (Some (Shared.erase_closure c)).
Proof.
  unfold Shared.set, set. by rewrite fmap_app, erase_remove_named.
Qed.

Lemma shared_valid_spec (d : gmap string (list (string * Shared.Closure))) :
  Shared.valid d = true <->
  forall t, t ∈ chart_events -> exists es, d !! t = Some es /\ NoDup es.*1.
Proof.
  unfold Shared.valid. rewrite forallb_forall. split.
  - intros H t Ht. apply list_elem_of_In, H in Ht.
    destruct (d !! t) as [es|]; [|done].
    exists es. split; [done|]. by apply bool_decide_eq_true in Ht.
  - intros H t Ht. apply list_elem_of_In, H in Ht as (es & -> & Hes).
    by apply bool_decide_eq_true.
Qed.

Lemma shared_arrows_bare_spec (d : gmap string (list (string * Shared.Closure))) :
  Shared.arrows_bare d = true <->
  forall t es n c, t ∈ chart_events -> d !! t = Some es -> (n, c) ∈ es ->
    Shared.of_chart c = true -> n = "".
Proof.
  unfold Shared.arrows_bare. rewrite forallb_forall. split.
  - intros H t es n c Ht Hes Hin Hc. apply list_elem_of_In, H in Ht.
    rewrite Hes, forallb_forall in Ht.
    apply list_elem_of_In, Ht in Hin. simpl in Hin. rewrite Hc in Hin.
    by apply bool_decide_eq_true in Hin.
  - intros H t Ht. apply list_elem_of_In in Ht.
    destruct (d !! t) as [es|] eqn:Hes; [|done].
    apply forallb_forall. intros [n c] Hin. apply list_elem_of_In in Hin.
    simpl. destruct (Shared.of_chart c) eqn:Hc; [|done]. simpl.
    apply bool_decide_eq_true. by apply (H t es n c).
Qed.

Lemma shared_on_chart_event (d : gmap string (list (string * Shared.Closure)))
    t c :
  t ∈ chart_events ->
  Shared.on d t c =
  match d !! t with
  | Some es => Ok (<[t := Shared.set es "" (Some c)]> d)
  | None => Throw (Error ("unknown type: " ++ t))
  end.
Proof.
  intros Ht. destruct (parseTypename_chart_event t Ht) as [Hparse Hne].
  unfold Shared.on. rewrite Hparse. by case_decide.
Qed.

(** What the [updateChart] of the chart [k] leaves under each key. *)
Lemma shared_updateChart_on (d : gmap string (list (string * Shared.Closure)))
    k :
  Shared.valid d = true ->
  exists d', Shared.updateChart_on k d = Ok d' /\
    forall t, d' !! t =
      if bool_decide (t ∈ chart_events)
      then (fun es => Shared.set es "" (Some (Shared.closure_of k t))) <$> d !! t
      else d !! t.
Proof using Type.
  clear calculateColorScale calculateChartValues.
  rewrite shared_valid_spec. intros Hd.
  destruct (Hd "legendClick") as (es1 & H1 & _);
    [apply chart_events_cases; tauto|].
  destruct (Hd "barClick") as (es2 & H2 & _);
    [apply chart_events_cases; tauto|].
  destruct (Hd "barMouseOver") as (es3 & H3 & _);
    [apply chart_events_cases; tauto|].
  destruct (Hd "barMouseOut") as (es4 & H4 & _);
    [apply chart_events_cases; tauto|].
  unfold Shared.updateChart_on.
  rewrite !shared_on_chart_event by (apply chart_events_cases; tauto).
  rewrite H1. simpl.
  rewrite !shared_on_chart_event by (apply chart_events_cases; tauto).
  rewrite lookup_insert_ne, H2 by done. simpl.
  rewrite !shared_on_chart_event by (apply chart_events_cases; tauto).
  rewrite !lookup_insert_ne, H3 by done. simpl.
  rewrite !shared_on_chart_event by (apply chart_events_cases; tauto).
  rewrite !lookup_insert_ne, H4 by done.
  eexists. split; [done|]. intros t.
  case_bool_decide as Ht.
  - apply chart_events_cases in Ht.
    destruct Ht as [-> | [-> | [-> | ->]]];
      rewrite ?lookup_insert_eq, ?lookup_insert_ne by done;
      rewrite ?lookup_insert_eq, ?H1, ?H2, ?H3, ?H4; done.
  - rewrite chart_events_cases in Ht.
    rewrite !lookup_insert_ne; [done|..]; intros Heq; subst; tauto.
Qed.

Lemma lookup_erase (d : gmap string (list (string * Shared.Closure))) t :
  Shared.erase d !! t = (fun es => Shared.erase_entry <$> es) <$> d !! t.
Proof. unfold Shared.erase. by rewrite lookup_fmap. Qed.

Lemma erase_valid (d : gmap string (list (string * Shared.Closure))) :
  Shared.valid d = true -> valid_dispatcher (Shared.erase d) = true.
Proof.
  rewrite shared_valid_spec, valid_dispatcher_spec. intros Hd t Ht.
  destruct (Hd t Ht) as (es & Hes & Hnd).
  rewrite lookup_erase, Hes. simpl. eexists. split; [done|].
  rewrite <- list_fmap_compose.
  by rewrite (list_fmap_ext _ fst es) by done.
Qed.

(** For a single chart the two registrations are one: forgetting the
    charts after [updateChart_on] gives the dispatcher that [updateChart]
    leaves. *)
Lemma erase_updateChart_on (d d' : gmap string (list (string * Shared.Closure)))
    k :
  Shared.valid d = true ->
  Shared.updateChart_on k d = Ok d' ->
  Shared.erase d' = registered (Shared.erase d).
Proof.
  intros Hd Hd'.
  destruct (shared_updateChart_on d k Hd) as (d0 & Hd0 & Hlookup).
  rewrite Hd' in Hd0. injection Hd0 as <-.
  apply map_eq. intros t.
  rewrite lookup_erase, Hlookup, lookup_registered, lookup_erase.
  case_bool_decide; [|done].
  destruct (d !! t) as [es|]; simpl; [|done].
  rewrite erase_set. do 3 f_equal.
  unfold Shared.closure_of, handler_of. by case_decide.
Qed.

(** A render keeps the names unique and the arrows under the bare
    names. *)
Lemma shared_updateChart_on_keeps
    (d d' : gmap string (list (string * Shared.Closure))) k :
  Shared.valid d = true -> Shared.arrows_bare d = true ->
  Shared.updateChart_on k d = Ok d' ->
  Shared.valid d' = true /\ Shared.arrows_bare d' = true.
Proof.
  intros Hd Hbare Hd'.
  destruct (shared_updateChart_on d k Hd) as (d0 & Hd0 & Hlookup).
  rewrite Hd' in Hd0. injection Hd0 as <-.
  pose proof Hd as Hd1. rewrite shared_valid_spec in Hd1.
  rewrite shared_arrows_bare_spec in Hbare. split.
  - apply shared_valid_spec. intros t Ht.
    destruct (Hd1 t Ht) as (es & Hes & Hnd).
    rewrite Hlookup, bool_decide_true, Hes by done. simpl.
    eexists. split; [done|]. by apply shared_set_NoDup.
  - apply shared_arrows_bare_spec. intros t es' n c Ht.
    destruct (Hd1 t Ht) as (es & Hes & Hnd).
    rewrite Hlookup, bool_decide_true, Hes by done. simpl.
    intros [= <-]. unfold Shared.set. rewrite elem_of_app.
    intros [Hin|Hin] Hc.
    + apply (Hbare t es n c); try done.
      by apply (shared_remove_named_subseteq "").
    + apply list_elem_of_singleton in Hin. by injection Hin as -> _.
Qed.

Lemma foldl_run_closure_host payload (cs : list (Props.t * State))
    (es : list (string * Shared.Closure)) :
  (forall n c, (n, c) ∈ es -> Shared.of_chart c = false) ->
  foldl (run_closure payload) cs es.*2 = cs.
Proof.
  induction es as [|[n c] es IH]; simpl; [done|].
  intros Hes.
  assert (Shared.of_chart c = false) as Hc
    by (apply (Hes n); by apply elem_of_cons; left).
  destruct c; try done;
    apply IH; intros n' c' Hin; apply (Hes n'); by apply elem_of_cons; right.
Qed.

(** X10.  On a dispatcher that several charts register on (the one of
    [defaultProps], for every chart without a dispatcher of its own), with
    unique names and with the charts' arrows under the bare event names
    only, a [legendClick] after the render of a chart reaches that chart
    and no other: the arrow of any chart that rendered before is gone from
    under [legendClick], so the data of the chart that rendered last
    becomes the payload, from whichever legend the click came, and the
    state of every other chart of the page is as it was.  The dispatcher
    has unique names and bare arrows again afterwards. *)
Theorem X10_legend_click_reaches_the_last_renderer pg k p s payload :
  Shared.valid (shared pg) = true ->
  Shared.arrows_bare (shared pg) = true ->
  charts pg !! k = Some (p, s) ->
  exists pg1 pg2 s', render_chart k pg = Ok pg1 /\
    legend_click payload pg1 = Ok pg2 /\
    charts pg2 !! k = Some (p, s') /\
    State.data s' = payload /\
    (forall j, j ≠ k -> charts pg2 !! j = charts pg !! j) /\
    Shared.valid (shared pg2) = true /\
    Shared.arrows_bare (shared pg2) = true.
Proof using calculateChartValues.
  clear calculateColorScale.
  intros Hd Hbare Hk. pose proof (lookup_lt_Some _ _ _ Hk) as Hlt.
  unfold render_chart. rewrite Hk.
  destruct (render_declares p s (Shared.erase (shared pg)))
    as (r & -> & _ & _ & _ & _).
  { by apply valid_dispatcher_declares, erase_valid. }
  destruct (shared_updateChart_on (shared pg) k Hd) as (d' & Hd' & Hlookup).
  destruct (shared_updateChart_on_keeps _ _ k Hd Hbare Hd')
    as [Hvalid' Hbare'].
  simpl. rewrite Hd'. simpl.
  pose proof Hd as Hd1. rewrite shared_valid_spec in Hd1.
  destruct (Hd1 "legendClick") as (es & Hes & Hnd);
    [apply chart_events_cases; tauto|].
  assert (d' !! "legendClick" =
          Some ((Shared.remove_named "" es ++
                 [("", Shared.SetStateDataOf k)])%list))
    as Hlegend.
  { by rewrite Hlookup, bool_decide_true, Hes
      by (apply chart_events_cases; tauto). }
  exists (mkPage (<[k := (p, rendered_state r)]> (charts pg)) d').
  unfold legend_click. simpl. rewrite Hlegend.
  rewrite fmap_app, foldl_app. simpl.
  rewrite foldl_run_closure_host.
  2: { intros n c Hin. destruct (Shared.of_chart c) eqn:Hc; [|done].
       exfalso. apply (shared_remove_named_absent "" es Hnd).
       rewrite shared_arrows_bare_spec in Hbare.
       assert (n = "") as ->.
       { apply (Hbare "legendClick" es n c); try done.
         - apply chart_events_cases; tauto.
         - by apply (shared_remove_named_subseteq ""). }
       apply list_elem_of_fmap. by exists ("", c). }
  rewrite list_lookup_insert_eq by done.
  eexists _, _. split; [done|]. split; [done|]. simpl.
  split; [by rewrite list_lookup_insert_eq by by rewrite length_insert|].
  split; [done|].
  split; [intros j Hj; by rewrite !list_lookup_insert_ne|].
  done.
Qed.

(** *** The resize listener *)

Lemma removeEventListener_last (w : Window) type l :
  (type, l) ∉ w -> removeEventListener (w ++ [(type, l)]) type l = w.
Proof.
  induction w as [|e w IH]; simpl.
  - intros _. by case_decide.
  - rewrite not_elem_of_cons. intros [Hne Hw].
    case_decide; [congruence|]. by rewrite IH.
Qed.

Lemma elem_of_removeEventListener (w : Window) type l e :
  e ≠ (type, l) -> e ∈ removeEventListener w type l <-> e ∈ w.
Proof.
  intros Hne. induction w as [|e' w IH]; simpl; [done|].
  case_decide; subst.
  - rewrite elem_of_cons. split; [auto|]. by intros [?|?].
  - by rewrite !elem_of_cons, IH.
Qed.

Lemma removeEventListener_absent (w : Window) type l :
  NoDup w -> (type, l) ∉ removeEventListener w type l.
Proof.
  induction w as [|e w IH]; simpl.
  - intros _. apply not_elem_of_nil.
  - rewrite NoDup_cons. intros [He Hw].
    case_decide; subst; [done|].
    rewrite not_elem_of_cons. split; [congruence|auto].
Qed.

Lemma elem_of_addEventListener (w : Window) type l e :
  e ∈ addEventListener w type l <-> e ∈ w \/ e = (type, l).
Proof.
  unfold addEventListener. case_decide.
  - split; [auto|]. by intros [?| ->].
  - by rewrite elem_of_app, list_elem_of_singleton.
Qed.

(** The window never holds one listener twice. *)
Lemma addEventListener_NoDup (w : Window) type l :
  NoDup w -> NoDup (addEventListener w type l).
Proof.
  intros Hw. unfold addEventListener. case_decide; [done|].
  apply NoDup_app. split; [done|]. split; [|apply NoDup_singleton].
  intros e He. rewrite list_elem_of_singleton. by intros ->.
Qed.

Lemma updateDimensions_idemp p barChart (s : State) :
  updateDimensions p barChart (updateDimensions p barChart s) =
  updateDimensions p barChart s.
Proof. unfold updateDimensions. by destruct (Props.fluid p). Qed.

Lemma window_resize_spec (w : Window) k p barChart (s : State) :
  window_resize w k p barChart s =
  if decide (("resize", UpdateDimensions k) ∈ w)
  then updateDimensions p barChart s
  else s.
Proof.
  unfold window_resize. revert s.
  induction w as [|[type l] w IH]; intros s.
  - done.
  - cbn [foldl]. rewrite IH.
    destruct (decide ((type, l) = ("resize", UpdateDimensions k)))
      as [[= -> ->]|Hne].
    + simpl. rewrite !(decide_True (P := _ /\ _)) by (by split).
      rewrite (decide_True (P := _ ∈ _ :: _)) by apply list_elem_of_here.
      destruct (decide (("resize", UpdateDimensions k) ∈ w));
        [apply updateDimensions_idemp|done].
    + assert (run_listener k p barChart s (type, l) = s) as ->.
      { destruct l as [k'|tag]; simpl; [|done].
        destruct (decide (type = "resize" /\ k' = k)) as [[-> ->]|?];
          [congruence|done]. }
      destruct (decide (("resize", UpdateDimensions k) ∈ w)) as [Hin|Hin].
      * by rewrite decide_True by by apply list_elem_of_further.
      * rewrite decide_False; [done|].
        rewrite not_elem_of_cons. split; [congruence|done].
Qed.

(** X11.  Unmounting takes back what mounting put on the window: for a
    chart that was not listening yet, [componentWillUnmount] after the
    [addEventListener] of [componentDidMount] leaves the listeners of the
    window exactly as they were, those of other charts and of the host
    included and in their order. *)
Theorem X11_unmount_restores_the_window k (w : Window) :
  ("resize", UpdateDimensions k) ∉ w ->
  componentWillUnmount k (listen k w) = w.
Proof.
  intros Hk. unfold componentWillUnmount, listen, addEventListener.
  rewrite decide_False by done. by apply removeEventListener_last.
Qed.

(** X12.  A resize of the window reaches a chart exactly while it is
    mounted: after [componentDidMount] it runs the chart's
    [updateDimensions], once in effect; after [componentWillUnmount] it
    leaves the chart's state alone; and mounting or unmounting one chart
    changes nothing in what a resize does to another. *)
Theorem X12_resize_reaches_mounted_charts k (w : Window) p barChart
    (s : State) :
  NoDup w ->
  window_resize (listen k w) k p barChart s = updateDimensions p barChart s /\
  window_resize (componentWillUnmount k (listen k w)) k p barChart s = s /\
  forall k', k' ≠ k ->
    window_resize (listen k w) k' p barChart s
      = window_resize w k' p barChart s /\
    window_resize (componentWillUnmount k (listen k w)) k' p barChart s
      = window_resize w k' p barChart s.
Proof using Type.
  clear calculateColorScale calculateChartValues.
  intros Hw. rewrite !window_resize_spec. split; [|split].
  - rewrite decide_True; [done|].
    apply elem_of_addEventListener. by right.
  - rewrite decide_False; [done|].
    by apply removeEventListener_absent, addEventListener_NoDup.
  - intros k' Hk'. rewrite !window_resize_spec.
    assert (("resize", UpdateDimensions k') ≠ ("resize", UpdateDimensions k))
      as Hne by congruence.
    assert (("resize", UpdateDimensions k') ∈ listen k w <->
            ("resize", UpdateDimensions k') ∈ w) as Hlisten.
    { unfold listen. rewrite elem_of_addEventListener. by intuition. }
    assert (("resize", UpdateDimensions k') ∈
              componentWillUnmount k (listen k w) <->
            ("resize", UpdateDimensions k') ∈ w) as Hunmount.
    { unfold componentWillUnmount.
      by rewrite elem_of_removeEventListener. }
    split; repeat case_decide; tauto.
Qed.

(** *** The svg node *)

(** What the svg node needs to know of a render. *)
Lemma render_for_svg p s d :
  declares d chart_events = true ->
  exists r, render p s d = Ok r /\
    rendered_state r = set_data s (mapSeriesToData (State.data s)) /\
    rendered_dispatcher r = registered d /\
    rendered_svg r =
      (let layout := render_layout p s in
       let m := ChartValues.m layout in
       {| SvgAttrs.width :=
            ChartValues.w layout + Margin.left m + Margin.right m;
          SvgAttrs.height :=
            ChartValues.h layout + Margin.top m + Margin.bottom m;
          SvgAttrs.translate := (Margin.left m, Margin.top m) |}) /\
    (wrappers (rendered_children r) = [] <-> State.data s = []).
Proof.
  intros Hd. render_unfold p s Hd.
  eexists. split; [done|]. simpl.
  split; [done|]. split; [done|]. split; [done|].
  rewrite length_mapSeriesToData.
  by destruct (State.data s).
Qed.

Lemma commit_first children :
  commit children None =
  Some (SvgNode.mk None
          match wrappers children with [] => None | _ :: _ => Some None end).
Proof. done. Qed.

(** X13.  A mount whose [componentDidMount] does not change the width (with
    [fluid] off, or with [fluid] on and a width of 0 found) renders once,
    and that render writes nothing on the svg: the svg node is left
    without [width] and [height] attributes, and the wrapper, if the data
    is not empty, without its translate. *)
Theorem X13_single_render_leaves_svg_unsized p d barChart data :
  declares d chart_events = true ->
  Props.data p = Some data ->
  Props.fluid p = false \/ measured_or barChart (Props.width p) = 0 ->
  mount_svg p d barChart =
  Ok (Some (SvgNode.mk None
              match data with [] => None | _ :: _ => Some None end)).
Proof.
  intros Hd Hdata Hsingle.
  unfold mount_svg, first_render, componentWillMount. rewrite Hdata. simpl.
  match goal with |- context [render p ?s d] =>
    destruct (render_for_svg p s d Hd) as (r1 & -> & Hs1 & Hd1 & _ & Hw1)
  end.
  simpl in Hs1, Hw1. rewrite Hdata in Hs1, Hw1. simpl.
  assert (render_svg None r1 =
          Some (SvgNode.mk None
                  match data with [] => None | _ :: _ => Some None end))
    as Hsvg1.
  { unfold render_svg. simpl. rewrite commit_first.
    destruct (wrappers (rendered_children r1)) eqn:Hw, data; try done.
    - by destruct Hw1 as [Hw1 _]; specialize (Hw1 eq_refl).
    - by destruct Hw1 as [_ Hw1]; specialize (Hw1 eq_refl). }
  unfold componentDidMount. destruct (Props.fluid p) eqn:Hfluid.
  - destruct Hsingle as [|Hzero]; [done|].
    destruct (render_for_svg p
                (updateDimensions p barChart (rendered_state r1))
                (rendered_dispatcher r1)) as (r2 & -> & Hs2 & _).
    { rewrite Hd1. by apply registered_declares. }
    simpl. rewrite Hs2, Hs1. unfold updateDimensions. rewrite Hfluid.
    simpl. rewrite Hfluid, Hzero. simpl. by rewrite Hsvg1.
  - simpl. by rewrite Hsvg1.
Qed.

(** X14.  With [fluid] on and a width other than 0 found, the mount renders
    twice, and the second render sizes the svg: its [width] and [height]
    attributes are the plot size of the layout for the found width plus
    the margins, and the wrapper, if the data is not empty, is translated
    by the left and top margin. *)
Theorem X14_second_render_sizes_svg p d barChart data :
  declares d chart_events = true ->
  Props.data p = Some data ->
  Props.fluid p = true ->
  measured_or barChart (Props.width p) ≠ 0 ->
  let layout :=
    calculateChartValues (List.filter enabled (mapSeriesToData data))
      (measured_or barChart (Props.width p)) (Props.height p)
      (Props.margin p) (Props.xScaleType p) (Props.yScaleType p) in
  let m := ChartValues.m layout in
  mount_svg p d barChart =
  Ok (Some (SvgNode.mk
              (Some (ChartValues.w layout + Margin.left m + Margin.right m,
                     ChartValues.h layout + Margin.top m + Margin.bottom m))
              match data with
              | [] => None
              | _ :: _ => Some (Some (Margin.left m, Margin.top m))
              end)).
Proof.
  intros Hd Hdata Hfluid Hwidth layout m.
  unfold mount_svg, first_render, componentWillMount. rewrite Hdata. simpl.
  match goal with |- context [render p ?s d] =>
    destruct (render_for_svg p s d Hd) as (r1 & -> & Hs1 & Hd1 & _ & Hw1)
  end.
  simpl in Hs1, Hw1. rewrite Hdata in Hs1, Hw1. simpl.
  unfold componentDidMount. rewrite Hfluid.
  destruct (render_for_svg p
              (updateDimensions p barChart (rendered_state r1))
              (rendered_dispatcher r1)) as (r2 & -> & Hs2 & _ & Hsvg2 & Hw2).
  { rewrite Hd1. by apply registered_declares. }
  simpl. rewrite Hs2, Hs1. unfold updateDimensions. rewrite Hfluid.
  simpl. rewrite Hfluid. simpl.
  destruct (Z.eqb_spec (measured_or barChart (Props.width p)) 0) as [|_];
    [done|].
  simpl. unfold render_svg at 1. rewrite Hsvg2.
  unfold render_layout. rewrite Hs1. unfold updateDimensions.
  rewrite Hfluid. simpl. fold layout. fold m.
  rewrite Hs1 in Hw2. unfold updateDimensions in Hw2.
  rewrite Hfluid in Hw2. unfold commit.
  destruct data as [|c data].
  - destruct Hw1 as [_ ->]; [|done]. by destruct Hw2 as [_ ->].
  - destruct (wrappers (rendered_children r1)) as [|wr1 l1];
      [by destruct Hw1 as [Hw1 _]; specialize (Hw1 eq_refl)|].
    destruct (wrappers (rendered_children r2)) as [|wr2 l2];
      [by destruct Hw2 as [Hw2 _]; specialize (Hw2 eq_refl)|].
    done.
Qed.

End BarChart.

Arguments rendered_layout {ColorFn Scale} _.
Arguments rendered_state {ColorFn Scale} _.
Arguments rendered_dispatcher {ColorFn Scale} _.
Arguments rendered_svg {ColorFn Scale} _.
Arguments rendered_children {ColorFn Scale} _.
Arguments props {ColorFn} _.
Arguments state {ColorFn} _.
Arguments dispatcher {ColorFn} _.
Arguments initial_state {ColorFn} _.
Arguments updateDimensions {ColorFn} _ _ _.
Arguments run_callback {ColorFn} _ _ _.
Arguments call {ColorFn} _ _ _ _.
Arguments mounted {ColorFn Scale} _.
Arguments componentWillMount {ColorFn} _ _ _.
Arguments render {ColorFn Scale} _ _ _ _.
Arguments render_layout {ColorFn Scale} _ _ _.
Arguments first_render {ColorFn Scale} _ _ _ _.
Arguments componentDidMount {ColorFn Scale} _ _ _ _.
Arguments mount {ColorFn Scale} _ _ _ _ _.
Arguments step {ColorFn Scale} _ _ _.
Arguments run {ColorFn Scale} _ _ _.
Arguments placeholders {ColorFn Scale} _.
Arguments wrappers {ColorFn Scale} _.
Arguments mkInstance {ColorFn} _ _ _.
Arguments mkPage {ColorFn} _ _.
Arguments charts {ColorFn} _.
Arguments shared {ColorFn} _.
Arguments render_chart {ColorFn Scale} _ _ _.
Arguments legend_click {ColorFn} _ _.
Arguments window_resize {ColorFn} _ _ _ _ _.
Arguments mount_svg {ColorFn Scale} _ _ _ _ _.

(** ** The statements on the sample charts

    The statements above, taken at concrete props with the reference
    instances of the two helpers. *)

Local Abbreviation render_spec :=
  (render (ColorFn := ColorMapping) calculateChartValues_spec).
Local Abbreviation mount_spec :=
  (mount calculateColorScale_spec calculateChartValues_spec).
Local Abbreviation first_render_spec :=
  (first_render calculateColorScale_spec calculateChartValues_spec).

(** C1, witness: the default chart on an empty array, host callbacks on the
    dispatcher: the placeholder is 0 wide, the width of the state. *)
Lemma C1_render_by_emptiness_witness :
  declares hostDispatcher chart_events = true /\
  exists r,
    render_spec (defaultProps (Some [])) (initial_state (defaultProps (Some [])))
      hostDispatcher = Ok r /\
    placeholders (rendered_children r) = [NoData.mk 0 200 "No Data Available."] /\
    wrappers (rendered_children r) = [].
Proof.
  split; [reflexivity|].
  destruct (C1_render_by_emptiness ColorMapping ScaleSpec.t
              calculateChartValues_spec (defaultProps (Some []))
              (initial_state (defaultProps (Some []))) hostDispatcher eq_refl)
    as (r & Hr & Hempty & _).
  exists r. split; [exact Hr|]. exact (Hempty eq_refl).
Defined.

(** C1, counterexample to the statement as the specification has it: the
    first render of the default chart ([width] 600, [fluid] on) on an empty
    array.  The placeholder gets width 0, not the configured 600, and next
    to it the svg gets the number 0 that [data.length && ...] evaluates
    to. *)
Lemma C1_counterexample :
  exists r,
    first_render_spec (defaultProps (Some [])) defaultDispatcher = Ok r /\
    State.data (rendered_state r) = [] /\
    mounted (rendered_children r) =
      [CNoData (NoData.mk 0 200 "No Data Available."); CNumber 0] /\
    mounted (rendered_children r) ≠
      [CNoData
         (NoData.mk (Props.width (defaultProps (Some [])))
            (Props.height (defaultProps (Some [])))
            (Props.noDataMessage (defaultProps (Some []))))].
Proof.
  eexists. split; [vm_compute; reflexivity|].
  split; [reflexivity|]. split; [reflexivity|]. discriminate.
Qed.

(** C2, witness: [Sales] with the disabled [Returns] lays out as [Sales]
    alone. *)
Lemma C2_layout_from_enabled_series_witness :
  declares defaultDispatcher chart_events = true /\
  exists r r',
    render_spec (defaultProps (Some [sales; returns]))
      (State.mk [sales; returns] 600 ConstUndefined) defaultDispatcher = Ok r /\
    render_spec (defaultProps (Some [sales; returns]))
      (State.mk [sales] 600 ConstUndefined) hostDispatcher = Ok r' /\
    rendered_layout r' = rendered_layout r.
Proof.
  split; [reflexivity|].
  destruct (C2_layout_from_enabled_series ColorMapping ScaleSpec.t
              calculateChartValues_spec (defaultProps (Some [sales; returns]))
              (State.mk [sales; returns] 600 ConstUndefined)
              defaultDispatcher eq_refl)
    as (r & Hr & _ & _ & _ & _ & _ & Hsame).
  destruct (Hsame (State.mk [sales] 600 ConstUndefined) hostDispatcher
              eq_refl eq_refl eq_refl) as (r' & Hr' & Heq).
  exists r, r'. split; [exact Hr|]. split; [exact Hr'|exact Heq].
Defined.

(** C3, witness: the bars of [Sales] and the disabled [Returns]. *)
Lemma C3_bars_receive_every_series_witness :
  declares defaultDispatcher chart_events = true /\
  State.data (State.mk (ColorFn := ColorMapping) [sales; returns] 600
                ConstUndefined) ≠ [] /\
  exists r legend axis bars,
    render_spec (defaultProps (Some [sales; returns]))
      (State.mk [sales; returns] 600 ConstUndefined) defaultDispatcher = Ok r /\
    mounted (rendered_children r) = [CWrapper legend axis bars] /\
    ChartData.disabled <$> Bars.data bars = [None; Some true].
Proof.
  split; [reflexivity|]. split; [discriminate|].
  destruct (C3_bars_receive_every_series ColorMapping ScaleSpec.t
              calculateChartValues_spec (defaultProps (Some [sales; returns]))
              (State.mk [sales; returns] 600 ConstUndefined)
              defaultDispatcher eq_refl)
    as (r & legend & axis & bars & Hr & Hm & _ & _ & Hdis & _).
  { discriminate. }
  exists r, legend, axis, bars.
  split; [exact Hr|]. split; [exact Hm|exact Hdis].
Defined.

(** C3, counterexample to the statement as the specification has it: the
    data handed to the bars child holds [Returns], whose [disabled] flag is
    set. *)
Lemma C3_counterexample :
  exists r legend axis bars,
    first_render_spec (defaultProps (Some [sales; returns])) defaultDispatcher
      = Ok r /\
    rendered_children r = [CFalse; CWrapper legend axis bars] /\
    exists c, c ∈ Bars.data bars /\
      ChartData.key c = "Returns" /\ ChartData.disabled c = Some true.
Proof.
  eexists _, _, _, _. split; [vm_compute; reflexivity|].
  split; [reflexivity|].
  eexists. split.
  - apply elem_of_cons. right. apply elem_of_cons. left. reflexivity.
  - split; reflexivity.
Qed.

(** C4, witness: mounted on two series with the gradient, then resized,
    given one series and a category scheme, and clicked on the legend: the
    colour is still the gradient over two series. *)
Lemma C4_color_computed_at_mount_witness :
  let es :=
    [Resize (Some 640); ReceiveProps (schemeProps (Some [sales]));
     Dispatch "legendClick" [sales]] in
  declares defaultDispatcher chart_events = true /\
  Props.data (defaultProps (Some [sales; returns])) = Some [sales; returns] /\
  forallb valid_event es = true /\
  exists i i',
    mount_spec (defaultProps (Some [sales; returns])) defaultDispatcher
      (Some 800) = Ok i /\
    run calculateChartValues_spec i es = Ok i' /\
    State.color (state i') = Computed (Gradient 2 "#008793" "#00bf72").
Proof.
  intros es. split; [reflexivity|]. split; [reflexivity|].
  split; [reflexivity|].
  exact (C4_color_computed_at_mount ColorMapping ScaleSpec.t
           calculateColorScale_spec calculateChartValues_spec
           (defaultProps (Some [sales; returns])) defaultDispatcher (Some 800)
           [sales; returns] es eq_refl eq_refl eq_refl).
Defined.

(** C4, counterexample to the statement as the specification has it: after
    the host has changed [data], [useColorScale] and [colorSchemeCategory],
    the state's colour is the gradient of the old props and not the mapping
    of the new ones. *)
Lemma C4_counterexample :
  let p' := schemeProps (Some [sales]) in
  exists i i',
    mount_spec (defaultProps (Some [sales; returns])) defaultDispatcher
      (Some 800) = Ok i /\
    step calculateChartValues_spec i (ReceiveProps p') = Ok i' /\
    props i' = p' /\
    State.color (state i') = Computed (Gradient 2 "#008793" "#00bf72") /\
    State.color (state i') ≠
      Computed
        (calculateColorScale_spec (length [sales]) (Props.useColorScale p')
           (Props.colorScale p') (Props.colorSchemeCategory p')).
Proof.
  intros p'. eexists _, _. split; [vm_compute; reflexivity|].
  split; [vm_compute; reflexivity|].
  split; [reflexivity|]. split; [reflexivity|]. discriminate.
Qed.

(** C5, witness: a chart of fixed width 600 keeps it through three
    resizes. *)
Lemma C5_width_after_resizes_witness :
  declares defaultDispatcher chart_events = true /\
  Props.data (fixedProps (Some [sales])) = Some [sales] /\
  exists i i',
    mount_spec (fixedProps (Some [sales])) defaultDispatcher (Some 800) = Ok i /\
    run calculateChartValues_spec i
      (Resize <$> [Some 320; None; Some 1024]) = Ok i' /\
    State.width (state i') = 600.
Proof.
  split; [reflexivity|]. split; [reflexivity|].
  exact (C5_width_after_resizes ColorMapping ScaleSpec.t
           calculateColorScale_spec calculateChartValues_spec
           (fixedProps (Some [sales])) defaultDispatcher (Some 800) [sales]
           [Some 320; None; Some 1024] eq_refl eq_refl).
Defined.

(** C5, counterexample to the statement as the specification has it: a
    fluid chart whose container measures 0 on a resize does not take the
    measured width; it falls back to the [width] prop. *)
Lemma C5_counterexample :
  let p := defaultProps (Some [sales]) in
  exists i i',
    Props.fluid p = true /\
    mount_spec p defaultDispatcher (Some 800) = Ok i /\
    step calculateChartValues_spec i (Resize (Some 0)) = Ok i' /\
    State.width (state i) = 800 /\
    State.width (state i') = 600 /\
    State.width (state i') ≠ 0.
Proof.
  intros p. eexists _, _. split; [reflexivity|].
  split; [vm_compute; reflexivity|].
  split; [vm_compute; reflexivity|].
  split; [reflexivity|]. split; [reflexivity|]. discriminate.
Qed.

(** C6, witness: on a dispatcher with host callbacks, a legend click with
    [Returns] alone. *)
Lemma C6_legendClick_replaces_data_witness :
  let s := State.mk (ColorFn := ColorMapping) [sales] 600 ConstUndefined in
  valid_dispatcher hostDispatcher = true /\
  exists r handler s1,
    render_spec (defaultProps (Some [sales])) s hostDispatcher = Ok r /\
    on_get (rendered_dispatcher r) "legendClick" = Ok (Some handler) /\
    State.data (run_callback handler [returns] s) = [returns] /\
    call (rendered_dispatcher r) "legendClick" [returns] s = Ok s1 /\
    State.data s1 = [returns].
Proof.
  intros s. split; [reflexivity|].
  exact (C6_legendClick_replaces_data ColorMapping ScaleSpec.t
           calculateChartValues_spec (defaultProps (Some [sales])) s
           hostDispatcher [returns] s eq_refl).
Defined.

(** C8, witness: the [barClick] handler after a render on the dispatcher
    where the host had its own. *)
Lemma C8_bar_handlers_keep_state_witness :
  let s := State.mk (ColorFn := ColorMapping) [sales] 600 ConstUndefined in
  valid_dispatcher hostDispatcher = true /\
  "barClick" ∈ ["barClick"; "barMouseOver"; "barMouseOut"] /\
  exists r handler,
    render_spec (defaultProps (Some [sales])) s hostDispatcher = Ok r /\
    on_get (rendered_dispatcher r) "barClick" = Ok (Some handler) /\
    run_callback handler [returns] s = s.
Proof.
  intros s.
  assert ("barClick" ∈ ["barClick"; "barMouseOver"; "barMouseOut"]) as Hin
    by constructor.
  split; [reflexivity|]. split; [exact Hin|].
  exact (C8_bar_handlers_keep_state ColorMapping ScaleSpec.t
           calculateChartValues_spec (defaultProps (Some [sales])) s
           hostDispatcher "barClick" [returns] s eq_refl Hin).
Defined.

(** C9, witness: the host's callbacks under the bare names [legendClick]
    and [barClick] are replaced by the render. *)
Lemma C9_render_registers_handlers_witness :
  let s := State.mk (ColorFn := ColorMapping) [sales] 600 ConstUndefined in
  valid_dispatcher hostDispatcher = true /\
  on_get hostDispatcher "legendClick" = Ok (Some (HostCallback "onLegend")) /\
  on_get hostDispatcher "barClick" = Ok (Some (HostCallback "onBar")) /\
  exists r,
    render_spec (defaultProps (Some [sales])) s hostDispatcher = Ok r /\
    on_get (rendered_dispatcher r) "legendClick" = Ok (Some SetStateData) /\
    on_get (rendered_dispatcher r) "barClick" = Ok (Some NoOp) /\
    on_get (rendered_dispatcher r) "barMouseOver" = Ok (Some NoOp) /\
    on_get (rendered_dispatcher r) "barMouseOut" = Ok (Some NoOp) /\
    valid_dispatcher (rendered_dispatcher r) = true.
Proof.
  intros s. split; [reflexivity|]. split; [reflexivity|].
  split; [reflexivity|].
  exact (C9_render_registers_handlers ColorMapping ScaleSpec.t
           calculateChartValues_spec (defaultProps (Some [sales])) s
           hostDispatcher eq_refl).
Defined.

(** The host's callback under the qualified name [legendClick.log] is still
    there after the render. *)
Example host_log_survives_render :
  exists r,
    render_spec (defaultProps (Some [sales]))
      (State.mk [sales] 600 ConstUndefined) hostDispatcher = Ok r /\
    on_get (rendered_dispatcher r) "legendClick.log" =
      Ok (Some (HostCallback "log")).
Proof. eexists. split; [vm_compute; reflexivity|reflexivity]. Qed.

(** C10, witness: the default chart in a container 800 wide. *)
Lemma C10_fluid_first_layout_has_width_0_witness :
  let p := defaultProps (Some [sales; returns]) in
  declares defaultDispatcher chart_events = true /\
  Props.fluid p = true /\
  Props.data p = Some [sales; returns] /\
  exists r1 r2,
    first_render_spec p defaultDispatcher = Ok r1 /\
    ChartValues.w (rendered_layout r1) = -50 /\
    State.width (rendered_state r1) = 0 /\
    componentDidMount calculateChartValues_spec p (Some 800) r1 = Ok r2 /\
    State.width (rendered_state r2) = 800.
Proof.
  intros p. split; [reflexivity|]. split; [reflexivity|].
  split; [reflexivity|].
  destruct (C10_fluid_first_layout_has_width_0 ColorMapping ScaleSpec.t
              calculateColorScale_spec calculateChartValues_spec p
              defaultDispatcher (Some 800) [sales; returns]
              eq_refl eq_refl eq_refl)
    as (_ & r1 & r2 & Hr1 & Hl & Hw1 & Hr2 & Hw2).
  exists r1, r2. split; [exact Hr1|]. split; [by rewrite Hl|].
  split; [exact Hw1|]. split; [exact Hr2|exact Hw2].
Defined.

(** C10, counterexample to the statement as the specification has it: a
    fluid chart whose container measures 0 at the mount does not adopt the
    measured width when [updateDimensions] runs; the layout of the first
    render has width 0, and after [componentDidMount] the width is the
    [width] prop. *)
Lemma C10_counterexample :
  let p := defaultProps (Some [sales]) in
  let offsetWidth := 0 in
  exists r1 r2,
    Props.fluid p = true /\
    first_render_spec p defaultDispatcher = Ok r1 /\
    State.width (rendered_state r1) = 0 /\
    componentDidMount calculateChartValues_spec p (Some offsetWidth) r1 = Ok r2 /\
    State.width (rendered_state r2) = Props.width p /\
    State.width (rendered_state r2) ≠ offsetWidth.
Proof.
  intros p offsetWidth. eexists _, _. split; [reflexivity|].
  split; [vm_compute; reflexivity|].
  split; [reflexivity|].
  split; [vm_compute; reflexivity|].
  split; [reflexivity|]. discriminate.
Qed.

(** C7, witness: the default props without [data]. *)
Lemma C7_absent_data_throws_witness :
  Props.data (defaultProps None) = None /\
  State.data (initial_state (ColorFn := ColorMapping) (defaultProps None)) = [] /\
  mount_spec (defaultProps None) defaultDispatcher (Some 800) =
    Throw (TypeError "Cannot read property 'length' of undefined").
Proof.
  split; [reflexivity|].
  exact (C7_absent_data_throws ColorMapping ScaleSpec.t
           calculateColorScale_spec calculateChartValues_spec
           (defaultProps None) defaultDispatcher (Some 800) eq_refl).
Defined.

(** ** The further properties on the sample charts *)

(** X3, witness: a second render with other props, on the dispatcher with
    the host's callbacks. *)
Lemma X3_second_render_changes_nothing_witness :
  let s := State.mk (ColorFn := ColorMapping) [sales; returns] 600
             ConstUndefined in
  valid_dispatcher hostDispatcher = true /\
  exists r r',
    render_spec (defaultProps (Some [sales; returns])) s hostDispatcher
      = Ok r /\
    render_spec (schemeProps (Some [sales])) (rendered_state r)
      (rendered_dispatcher r) = Ok r' /\
    rendered_state r' = rendered_state r /\
    rendered_dispatcher r' = rendered_dispatcher r.
Proof.
  intros s. split; [reflexivity|].
  exact (X3_second_render_changes_nothing ColorMapping ScaleSpec.t
           calculateChartValues_spec (defaultProps (Some [sales; returns]))
           (schemeProps (Some [sales])) s hostDispatcher eq_refl).
Defined.

(** X4, witness: the host's [legendClick.log] after a render. *)
Lemma X4_render_keeps_qualified_callbacks_witness :
  let s := State.mk (ColorFn := ColorMapping) [sales] 600 ConstUndefined in
  declares hostDispatcher chart_events = true /\
  exists r,
    render_spec (defaultProps (Some [sales])) s hostDispatcher = Ok r /\
    on_get (rendered_dispatcher r) "legendClick.log"
      = Ok (Some (HostCallback "log")).
Proof.
  intros s. split; [reflexivity|].
  destruct (X4_render_keeps_qualified_callbacks ColorMapping ScaleSpec.t
              calculateChartValues_spec (defaultProps (Some [sales])) s
              hostDispatcher eq_refl) as (r & Hr & Hnamed & _).
  exists r. split; [exact Hr|].
  rewrite (Hnamed "legendClick.log"); [reflexivity|discriminate].
Defined.

(** X5, witness: the children of [Sales] and [Returns]. *)
Lemma X5_children_share_geometry_witness :
  let s := State.mk (ColorFn := ColorMapping) [sales; returns] 600
             ConstUndefined in
  declares defaultDispatcher chart_events = true /\
  State.data s ≠ [] /\
  exists r legend axis bars,
    render_spec (defaultProps (Some [sales; returns])) s defaultDispatcher
      = Ok r /\
    wrappers (rendered_children r) = [(legend, axis, bars)] /\
    Axis.x axis = Bars.x bars /\
    Axis.y axis = Bars.y bars /\
    Axis.height axis = Bars.height bars.
Proof.
  intros s. split; [reflexivity|]. split; [discriminate|].
  destruct (X5_children_share_geometry ColorMapping ScaleSpec.t
              calculateChartValues_spec (defaultProps (Some [sales; returns]))
              s defaultDispatcher eq_refl)
    as (r & legend & axis & bars & Hr & Hw & Hx & Hy & Hh & _).
  { discriminate. }
  exists r, legend, axis, bars.
  split; [exact Hr|]. split; [exact Hw|]. split; [exact Hx|].
  split; [exact Hy|exact Hh].
Defined.

(** X6, witness: a chart with a category scheme and no container. *)
Lemma X6_default_dispatcher_mounts_witness :
  Props.data (schemeProps (Some [sales])) = Some [sales] /\
  exists i,
    mount_spec (schemeProps (Some [sales])) defaultDispatcher None = Ok i /\
    props i = schemeProps (Some [sales]) /\
    dispatcher i = registered defaultDispatcher.
Proof.
  split; [reflexivity|].
  exact (X6_default_dispatcher_mounts ColorMapping ScaleSpec.t
           calculateColorScale_spec calculateChartValues_spec
           (schemeProps (Some [sales])) None [sales] eq_refl).
Defined.

(** X7, witness: new props with other data and a category scheme, on the
    same dispatcher, on the dispatcher of the host, and on a dispatcher
    without event types. *)
Lemma X7_new_props_leave_the_state_witness :
  let p := defaultProps (Some [sales]) in
  let p' := schemeProps (Some [returns]) in
  valid_dispatcher defaultDispatcher = true /\
  Props.data p = Some [sales] /\
  exists i,
    mount_spec p defaultDispatcher (Some 800) = Ok i /\
    step calculateChartValues_spec i (ReceiveProps p')
      = Ok (mkInstance p' (state i) (dispatcher i)) /\
    step calculateChartValues_spec i (ReceiveEventDispatcher p' hostDispatcher)
      = Ok (mkInstance p' (state i) (registered hostDispatcher)) /\
    exists e,
      step calculateChartValues_spec i (ReceiveEventDispatcher p' (dispatch []))
        = Throw e.
Proof.
  intros p p'. split; [reflexivity|]. split; [reflexivity|].
  destruct (X7_new_props_leave_the_state ColorMapping ScaleSpec.t
              calculateColorScale_spec calculateChartValues_spec
              p defaultDispatcher (Some 800) [sales] eq_refl eq_refl)
    as (i & Hi & Hsame & Hother & Hthrows).
  exists i. split; [exact Hi|]. split; [exact (Hsame p')|].
  split; [exact (Hother p' hostDispatcher eq_refl)|].
  exact (Hthrows p' (dispatch []) eq_refl).
Defined.

(** X8, witness: a [barMouseOver] on the chart of [Sales]. *)
Lemma X8_bar_events_change_nothing_witness :
  valid_dispatcher hostDispatcher = true /\
  host_only hostDispatcher = true /\
  Props.data (defaultProps (Some [sales])) = Some [sales] /\
  "barMouseOver" ∈ ["barClick"; "barMouseOver"; "barMouseOut"] /\
  exists i,
    mount_spec (defaultProps (Some [sales])) hostDispatcher (Some 800) = Ok i /\
    step calculateChartValues_spec i (Dispatch "barMouseOver" [returns]) = Ok i.
Proof.
  assert ("barMouseOver" ∈ ["barClick"; "barMouseOver"; "barMouseOut"]) as Hin
    by (right; left).
  split; [reflexivity|]. split; [reflexivity|]. split; [reflexivity|].
  split; [exact Hin|].
  exact (X8_bar_events_change_nothing ColorMapping ScaleSpec.t
           calculateColorScale_spec calculateChartValues_spec
           (defaultProps (Some [sales])) hostDispatcher (Some 800) [sales]
           "barMouseOver" [returns] eq_refl eq_refl eq_refl Hin).
Defined.

(** X9, witness: a chart on the default dispatcher after another chart has
    rendered on it; a legend click that leaves [Returns] alone, a resize,
    new props with the dispatcher of the host, a bar click and new props
    again. *)
Lemma X9_data_is_the_last_legend_payload_witness :
  let d := registered defaultDispatcher in
  let es :=
    [Dispatch "legendClick" [returns]; Resize (Some 640);
     ReceiveEventDispatcher (schemeProps (Some [sales])) hostDispatcher;
     Dispatch "barClick" [sales]; ReceiveProps (defaultProps (Some [sales]))] in
  valid_dispatcher d = true /\
  arrows_in_place d = true /\
  host_only d = false /\
  Props.data (defaultProps (Some [sales; returns])) = Some [sales; returns] /\
  forallb settled_event es = true /\
  exists i i',
    mount_spec (defaultProps (Some [sales; returns])) d (Some 800) = Ok i /\
    run calculateChartValues_spec i es = Ok i' /\
    State.data (state i') = mapSeriesToData [returns] /\
    dispatcher i' = registered hostDispatcher.
Proof.
  intros d es. split; [reflexivity|]. split; [reflexivity|].
  split; [reflexivity|]. split; [reflexivity|]. split; [reflexivity|].
  exact (X9_data_is_the_last_legend_payload ColorMapping ScaleSpec.t
           calculateColorScale_spec calculateChartValues_spec
           (defaultProps (Some [sales; returns])) d (Some 800)
           [sales; returns] es eq_refl eq_refl eq_refl eq_refl).
Defined.

(** X10, witness: two charts on the default dispatcher, the first with
    [Sales], the second with [Returns].  The first chart has rendered and
    holds the handlers; once the second renders, a legend click with
    [Sales] alone lands on the second chart and not on the first. *)
Lemma X10_legend_click_reaches_the_last_renderer_witness :
  let sA := State.mk (ColorFn := ColorMapping) [sales] 600 ConstUndefined in
  let sB := State.mk (ColorFn := ColorMapping) [returns] 600 ConstUndefined in
  let pA := defaultProps (Some [sales]) in
  let pB := defaultProps (Some [returns]) in
  let pg := mkPage [(pA, sA); (pB, sB)] pageDispatcher in
  Shared.valid (shared pg) = true /\
  Shared.arrows_bare (shared pg) = true /\
  charts pg !! 1%nat = Some (pB, sB) /\
  exists pg1 pg2 s',
    render_chart calculateChartValues_spec 1 pg = Ok pg1 /\
    legend_click [sales] pg1 = Ok pg2 /\
    charts pg2 !! 1%nat = Some (pB, s') /\
    State.data s' = [sales] /\
    charts pg2 !! 0%nat = Some (pA, sA).
Proof.
  intros sA sB pA pB pg. split; [reflexivity|]. split; [reflexivity|].
  split; [reflexivity|].
  destruct (X10_legend_click_reaches_the_last_renderer ColorMapping
              ScaleSpec.t calculateChartValues_spec pg 1%nat pB sB [sales]
              eq_refl eq_refl eq_refl)
    as (pg1 & pg2 & s' & Hr & Hc & Hk & Hs & Hother & _).
  exists pg1, pg2, s'. split; [exact Hr|]. split; [exact Hc|].
  split; [exact Hk|]. split; [exact Hs|].
  rewrite (Hother 0%nat); [reflexivity|discriminate].
Defined.

(** Before the second chart renders, the same click lands on the first
    chart, which holds the arrow under [legendClick] then. *)
Example legend_click_before_the_second_render :
  let sA := State.mk (ColorFn := ColorMapping) [sales] 600 ConstUndefined in
  let sB := State.mk (ColorFn := ColorMapping) [returns] 600 ConstUndefined in
  let pA := defaultProps (Some [sales]) in
  let pB := defaultProps (Some [returns]) in
  legend_click [returns] (mkPage [(pA, sA); (pB, sB)] pageDispatcher) =
  Ok (mkPage [(pA, State.mk [returns] 600 ConstUndefined); (pB, sB)]
        pageDispatcher).
Proof. vm_compute. reflexivity. Qed.

(** X11, witness: a window on which the host and another chart listen. *)
Lemma X11_unmount_restores_the_window_witness :
  let w := [("resize", HostListener "layout");
            ("resize", UpdateDimensions 0)] in
  (("resize", UpdateDimensions 1) ∉ w) /\
  componentWillUnmount 1 (listen 1 w) = w.
Proof.
  intros w.
  assert (("resize", UpdateDimensions 1) ∉ w) as Hfresh.
  { subst w. rewrite !not_elem_of_cons. repeat split; try discriminate.
    apply not_elem_of_nil. }
  split; [exact Hfresh|].
  exact (X11_unmount_restores_the_window 1 w Hfresh).
Defined.

(** X12, witness: the same window, the default chart as chart 1. *)
Lemma X12_resize_reaches_mounted_charts_witness :
  let w := [("resize", HostListener "layout");
            ("resize", UpdateDimensions 0)] in
  let s := State.mk (ColorFn := ColorMapping) [sales] 0 ConstUndefined in
  let p := defaultProps (Some [sales]) in
  NoDup w /\
  State.width (window_resize (listen 1 w) 1 p (Some 640) s) = 640 /\
  window_resize (componentWillUnmount 1 (listen 1 w)) 1 p (Some 640) s = s.
Proof.
  intros w s p.
  assert (NoDup w) as Hw by (apply (bool_decide_unpack _); reflexivity).
  split; [exact Hw|].
  destruct (X12_resize_reaches_mounted_charts ColorMapping 1 w p (Some 640) s
              Hw) as (Hmounted & Hunmounted & _).
  split; [by rewrite Hmounted|exact Hunmounted].
Defined.

(** X13, witness: the chart of fixed width: one render, no attributes. *)
Lemma X13_single_render_leaves_svg_unsized_witness :
  declares defaultDispatcher chart_events = true /\
  Props.data (fixedProps (Some [sales])) = Some [sales] /\
  (Props.fluid (fixedProps (Some [sales])) = false \/
   measured_or (Some 800) (Props.width (fixedProps (Some [sales]))) = 0) /\
  mount_svg calculateColorScale_spec calculateChartValues_spec
    (fixedProps (Some [sales])) defaultDispatcher (Some 800) =
  Ok (Some (SvgNode.mk None (Some None))).
Proof.
  split; [reflexivity|]. split; [reflexivity|].
  split; [left; reflexivity|].
  exact (X13_single_render_leaves_svg_unsized ColorMapping ScaleSpec.t
           calculateColorScale_spec calculateChartValues_spec
           (fixedProps (Some [sales])) defaultDispatcher (Some 800) [sales]
           eq_refl eq_refl (or_introl eq_refl)).
Defined.

(** X14, witness: the default chart in a container 800 wide: the svg is
    800 by 200 and the wrapper is moved by the margins 40 and 20. *)
Lemma X14_second_render_sizes_svg_witness :
  declares defaultDispatcher chart_events = true /\
  Props.data (defaultProps (Some [sales])) = Some [sales] /\
  Props.fluid (defaultProps (Some [sales])) = true /\
  measured_or (Some 800) (Props.width (defaultProps (Some [sales]))) ≠ 0 /\
  mount_svg calculateColorScale_spec calculateChartValues_spec
    (defaultProps (Some [sales])) defaultDispatcher (Some 800) =
  Ok (Some (SvgNode.mk (Some (800, 200)) (Some (Some (40, 20))))).
Proof.
  assert (measured_or (Some 800) (Props.width (defaultProps (Some [sales])))
          ≠ 0) as Hwidth by discriminate.
  split; [reflexivity|]. split; [reflexivity|]. split; [reflexivity|].
  split; [exact Hwidth|].
  exact (X14_second_render_sizes_svg ColorMapping ScaleSpec.t
           calculateColorScale_spec calculateChartValues_spec
           (defaultProps (Some [sales])) defaultDispatcher (Some 800) [sales]
           eq_refl eq_refl eq_refl Hwidth).
Defined.
